(** * Webhook signature verification of the Python sample client

    A shallow embedding of [WebhookVerifier] and of the Flask handler
    [handle_webhook] from [docs/api/sample-clients/python-client.py],
    together with the library primitives they call: the UTF-8 codec,
    [hashlib.sha256], [hmac.new(...).hexdigest()] and
    [hmac.compare_digest]. Of [PlatformAPIClient] it embeds [_request],
    [_generate_correlation_id] and the methods that do more than
    concatenate an endpoint: [get_revenue_metrics],
    [get_search_suggestions] and [create_webhook_endpoint].

    Python values are modelled as follows.
    - [bytes] is [list byte];
    - [str] is a list of Unicode code points ([pystr] = [list N]); a [str]
      may hold lone surrogates, which is why [encode_utf8] can raise;
    - an exception is the [Err] branch of [result];
    - the [print] calls of the handler are recorded in an output trace. *)

From Stdlib Require Import String Ascii.
From Stdlib Require Import Strings.Byte.
From Stdlib Require Import Arith NArith ZArith List Bool Lia ZifyClasses.
Import ListNotations.

Local Open Scope N_scope.

(** ** Exceptions and results *)

Inductive exn : Type :=
| UnicodeEncodeError
| TypeError
| AttributeError
| HTTPException (status : N).

Inductive result (A : Type) : Type :=
| Ok (a : A)
| Err (e : exn).

Arguments Ok {A} a.
Arguments Err {A} e.

Definition bind {A B : Type} (r : result A) (k : A -> result B) : result B :=
  match r with
  | Ok a => k a
  | Err e => Err e
  end.

Notation "x <- r ;; k" := (bind r (fun x => k))
  (at level 61, r at next level, right associativity).

(** ** Bytes *)

(** The byte with value [n mod 256]. *)
Definition byte_of_N (n : N) : byte :=
  match Byte.of_N (n mod 256) with
  | Some b => b
  | None => x00
  end.

Definition bytes_to_N (bs : list byte) : list N := map Byte.to_N bs.

(** ** Python strings *)

Definition pystr : Type := list N.

(** A string literal of the source, as the code points of its characters. *)
Definition lit (s : string) : pystr :=
  map N_of_ascii (list_ascii_of_string s).

Fixpoint pystr_eqb (a b : pystr) : bool :=
  match a, b with
  | [], [] => true
  | x :: a', y :: b' => (x =? y) && pystr_eqb a' b'
  | _, _ => false
  end.

(** ** SHA-256 (FIPS 180-4), as computed by [hashlib.sha256] *)

Module SHA256.

Definition mask32 (x : N) : N := x mod 4294967296.

Definition add32 (x y : N) : N := mask32 (x + y).

Definition rotr (n x : N) : N :=
  N.lor (N.shiftr x n) (mask32 (N.shiftl x (32 - n))).

Definition not32 (x : N) : N := N.lxor x 4294967295.

Definition ch (x y z : N) : N :=
  N.lxor (N.land x y) (N.land (not32 x) z).

Definition maj (x y z : N) : N :=
  N.lxor (N.lxor (N.land x y) (N.land x z)) (N.land y z).

Definition bsig0 (x : N) : N :=
  N.lxor (N.lxor (rotr 2 x) (rotr 13 x)) (rotr 22 x).

Definition bsig1 (x : N) : N :=
  N.lxor (N.lxor (rotr 6 x) (rotr 11 x)) (rotr 25 x).

Definition ssig0 (x : N) : N :=
  N.lxor (N.lxor (rotr 7 x) (rotr 18 x)) (N.shiftr x 3).

Definition ssig1 (x : N) : N :=
  N.lxor (N.lxor (rotr 17 x) (rotr 19 x)) (N.shiftr x 10).

(** The constants of FIPS 180-4, 4.2.2 and 5.3.3 are the first 32 bits of
    the fractional parts of the cube roots, respectively square roots, of
    the first primes. *)
Definition is_prime (n : N) : bool :=
  (2 <=? n)
  && forallb (fun d => negb (n mod N.of_nat d =? 0))
             (seq 2 (N.to_nat n - 2)).

Definition primes (count : nat) : list N :=
  firstn count (filter is_prime (map N.of_nat (seq 2 400))).

(** Integer cube root of [n], found bit by bit from bit [k - 1] down. *)
Fixpoint cbrt_bits (k : nat) (n r : N) : N :=
  match k with
  | O => r
  | S k' =>
      let c := r + 2 ^ N.of_nat k' in
      if c * c * c <=? n then cbrt_bits k' n c else cbrt_bits k' n r
  end.

Definition frac_cbrt (p : N) : N := mask32 (cbrt_bits 35 (p * 2 ^ 96) 0).

Definition frac_sqrt (p : N) : N := mask32 (N.sqrt (p * 2 ^ 64)).

Definition K : list N := Eval vm_compute in map frac_cbrt (primes 64).

(** The eight working variables / the intermediate hash value. *)
Record state : Type := mkState {
  ha : N; hb : N; hc : N; hd : N; he : N; hf : N; hg : N; hh : N
}.

Definition state_of_words (w : list N) : state :=
  mkState (nth 0 w 0) (nth 1 w 0) (nth 2 w 0) (nth 3 w 0)
          (nth 4 w 0) (nth 5 w 0) (nth 6 w 0) (nth 7 w 0).

Definition H0 : state :=
  Eval vm_compute in state_of_words (map frac_sqrt (primes 8)).

(** Big-endian 32-bit words of a block. *)
Fixpoint words (bs : list N) : list N :=
  match bs with
  | b0 :: b1 :: b2 :: b3 :: r =>
      (b0 * 16777216 + b1 * 65536 + b2 * 256 + b3) :: words r
  | _ => []
  end.

(** Message schedule, most recent word first: [w] holds W(t-1), W(t-2), ... *)
Fixpoint schedule (n : nat) (w : list N) : list N :=
  match n with
  | O => w
  | S n' =>
      let wt := add32 (add32 (add32 (ssig1 (nth 1 w 0)) (nth 6 w 0))
                             (ssig0 (nth 14 w 0))) (nth 15 w 0) in
      schedule n' (wt :: w)
  end.

Definition round (s : state) (kw : N * N) : state :=
  let (k, w) := kw in
  let t1 := add32 (add32 (add32 (add32 (hh s) (bsig1 (he s)))
                                (ch (he s) (hf s) (hg s))) k) w in
  let t2 := add32 (bsig0 (ha s)) (maj (ha s) (hb s) (hc s)) in
  mkState (add32 t1 t2) (ha s) (hb s) (hc s)
          (add32 (hd s) t1) (he s) (hf s) (hg s).

(** One application of the compression function to a 64-byte block. *)
Definition compress (h : state) (block : list N) : state :=
  let w := rev (schedule 48 (rev (words block))) in
  let s := fold_left round (combine K w) h in
  mkState (add32 (ha h) (ha s)) (add32 (hb h) (hb s))
          (add32 (hc h) (hc s)) (add32 (hd h) (hd s))
          (add32 (he h) (he s)) (add32 (hf h) (hf s))
          (add32 (hg h) (hg s)) (add32 (hh h) (hh s)).

(** Big-endian encoding of [x] on [n] bytes. *)
Fixpoint be_bytes (n : nat) (x : N) : list N :=
  match n with
  | O => []
  | S n' => (x / 256 ^ N.of_nat n') mod 256 :: be_bytes n' x
  end.

(** Padding: 0x80, zeros up to 56 mod 64, then the bit length on 8 bytes. *)
Definition pad (len : N) : list N :=
  let zeros := (119 - len mod 64) mod 64 in
  128 :: repeat 0 (N.to_nat zeros) ++ be_bytes 8 (8 * len).

(** Absorb the message byte by byte, compressing every full 64-byte
    block; [buf] is the current partial block in reverse, [n] its length. *)
Fixpoint absorb (h : state) (buf : list N) (n : nat) (bs : list N) : state :=
  match bs with
  | [] => h
  | b :: r =>
      if Nat.eqb n 63
      then absorb (compress h (rev (b :: buf))) [] 0%nat r
      else absorb h (b :: buf) (S n) r
  end.

Definition digest_words (h : state) : list N :=
  [ha h; hb h; hc h; hd h; he h; hf h; hg h; hh h].

Definition digest (msg : list byte) : list byte :=
  let m := bytes_to_N msg in
  let h := absorb H0 [] 0%nat (m ++ pad (N.of_nat (length m))) in
  map byte_of_N (flat_map (be_bytes 4) (digest_words h)).

Definition block_size : nat := 64.

End SHA256.

(** ** HMAC (RFC 2104), as computed by [hmac.new(key, msg, hashlib.sha256)] *)

Definition xor_pad (c : N) (k : list byte) : list byte :=
  map (fun b => byte_of_N (N.lxor (Byte.to_N b) c)) k.

Definition hmac_key_block (key : list byte) : list byte :=
  let k := if Nat.ltb SHA256.block_size (length key)
           then SHA256.digest key else key in
  k ++ repeat x00 (SHA256.block_size - length k).

Definition hmac_sha256 (key msg : list byte) : list byte :=
  let k := hmac_key_block key in
  SHA256.digest (xor_pad 0x5c k ++ SHA256.digest (xor_pad 0x36 k ++ msg)).

(** ** [hexdigest]: lowercase hexadecimal rendering *)

Definition hex_digit (n : N) : N :=
  if n <? 10 then 48 + n else 87 + n.

Definition hex_of_byte (b : byte) : pystr :=
  let n := Byte.to_N b in [hex_digit (n / 16); hex_digit (n mod 16)].

Definition hexdigest (bs : list byte) : pystr := flat_map hex_of_byte bs.

Definition ascii_bytes (s : string) : list byte :=
  map byte_of_ascii (list_ascii_of_string s).

(** ** The UTF-8 codec *)

Definition is_surrogate (c : N) : bool := (0xD800 <=? c) && (c <? 0xE000).

(** A code point that [str.encode('utf-8')] accepts. *)
Definition is_scalar (c : N) : bool := (c <? 0x110000) && negb (is_surrogate c).

(** The UTF-8 bytes of one code point; [None] where the strict encoder
    raises (lone surrogates). *)
Definition encode_cp (c : N) : option (list N) :=
  if c <? 0x80 then Some [c]
  else if c <? 0x800 then Some [0xC0 + c / 64; 0x80 + c mod 64]
  else if c <? 0x10000 then
    if is_surrogate c then None
    else Some [0xE0 + c / 4096; 0x80 + (c / 64) mod 64; 0x80 + c mod 64]
  else if c <? 0x110000 then
    Some [0xF0 + c / 262144; 0x80 + (c / 4096) mod 64;
          0x80 + (c / 64) mod 64; 0x80 + c mod 64]
  else None.

(** [s.encode('utf-8')]: raises [UnicodeEncodeError] on a lone surrogate. *)
Fixpoint encode_utf8 (s : pystr) : result (list byte) :=
  match s with
  | [] => Ok []
  | c :: r =>
      match encode_cp c with
      | None => Err UnicodeEncodeError
      | Some l => t <- encode_utf8 r ;; Ok (map byte_of_N l ++ t)
      end
  end.

Definition REPLACEMENT : N := 0xFFFD.

Definition is_cont (b : N) : bool := (0x80 <=? b) && (b <? 0xC0).

(** Second byte of a three-byte sequence: a continuation byte that is
    neither an overlong form (E0 80..9F) nor a surrogate (ED A0..BF). *)
Definition second_ok3 (b0 b1 : N) : bool :=
  is_cont b1 && negb (if b1 <? 0xA0 then b0 =? 0xE0 else b0 =? 0xED).

(** Second byte of a four-byte sequence: not overlong (F0 80..8F) and not
    above U+10FFFF (F4 90..BF). *)
Definition second_ok4 (b0 b1 : N) : bool :=
  is_cont b1 && negb (if b1 <? 0x90 then b0 =? 0xF0 else b0 =? 0xF4).

(** [bytes.decode('utf-8', errors='replace')], as CPython's decoder does
    it: an invalid start byte, or a sequence cut by a byte that cannot
    continue it, becomes one U+FFFD and decoding resumes at the offending
    byte; a sequence cut by the end of the input becomes one U+FFFD. *)
Fixpoint decode_replace (bs : list N) : pystr :=
  match bs with
  | [] => []
  | b0 :: r0 =>
      if b0 <? 0x80 then b0 :: decode_replace r0
      else if (b0 <? 0xC2) || (0xF5 <=? b0) then REPLACEMENT :: decode_replace r0
      else if b0 <? 0xE0 then
        match r0 with
        | [] => [REPLACEMENT]
        | b1 :: r1 =>
            if is_cont b1
            then (b0 mod 32 * 64 + b1 mod 64) :: decode_replace r1
            else REPLACEMENT :: decode_replace r0
        end
      else if b0 <? 0xF0 then
        match r0 with
        | [] => [REPLACEMENT]
        | b1 :: r1 =>
            if second_ok3 b0 b1 then
              match r1 with
              | [] => [REPLACEMENT]
              | b2 :: r2 =>
                  if is_cont b2
                  then (b0 mod 16 * 4096 + b1 mod 64 * 64 + b2 mod 64)
                         :: decode_replace r2
                  else REPLACEMENT :: decode_replace r1
              end
            else REPLACEMENT :: decode_replace r0
        end
      else
        match r0 with
        | [] => [REPLACEMENT]
        | b1 :: r1 =>
            if second_ok4 b0 b1 then
              match r1 with
              | [] => [REPLACEMENT]
              | b2 :: r2 =>
                  if is_cont b2 then
                    match r2 with
                    | [] => [REPLACEMENT]
                    | b3 :: r3 =>
                        if is_cont b3
                        then (b0 mod 8 * 262144 + b1 mod 64 * 4096
                              + b2 mod 64 * 64 + b3 mod 64)
                               :: decode_replace r3
                        else REPLACEMENT :: decode_replace r2
                    end
                  else REPLACEMENT :: decode_replace r1
              end
            else REPLACEMENT :: decode_replace r0
        end
  end.

Definition decode_utf8_replace (bs : list byte) : pystr :=
  decode_replace (bytes_to_N bs).

(** ** Python values that reach the verifier *)

(** [headers.get(...)] yields a [str] or [None]; the same holds for the
    argument of [WebhookVerifier(...)] when the secret is not configured. *)
Inductive pyval : Type :=
| PyNone
| PyStr (s : pystr).

Definition is_ascii (s : pystr) : bool := forallb (fun c => c <? 128) s.

(** ** [hmac.compare_digest] *)

(** CPython's [_tscmp]: the loop runs over the whole of [b]; when the
    lengths differ [b] is compared with itself and the result is forced
    to be non-zero. *)
Definition tscmp_step (acc : N) (xy : N * N) : N :=
  N.lor acc (N.lxor (fst xy) (snd xy)).

Definition tscmp (a b : list N) : bool :=
  let same := Nat.eqb (List.length a) (List.length b) in
  let left := if same then a else b in
  let start := if same then 0 else 1 in
  fold_left tscmp_step (combine left b) start =? 0.

(** Two [str] arguments must both be ASCII; any other mix with a [str]
    (here: [None] against a [str]) is a [TypeError]. *)
Definition compare_digest (a b : pyval) : result bool :=
  match a, b with
  | PyStr x, PyStr y =>
      if is_ascii x && is_ascii y then Ok (tscmp x y) else Err TypeError
  | _, _ => Err TypeError
  end.

(** ** [class WebhookVerifier] *)

Record WebhookVerifier : Type := mkVerifier { secret : list byte }.

(** [__init__]: [self.secret = secret.encode('utf-8')]. *)
Definition __init__ (s : pyval) : result WebhookVerifier :=
  match s with
  | PyNone => Err AttributeError
  | PyStr t => k <- encode_utf8 t ;; Ok (mkVerifier k)
  end.

Definition generate_signature (self : WebhookVerifier) (payload : pystr)
  : result pystr :=
  msg <- encode_utf8 payload ;;
  Ok (hexdigest (hmac_sha256 (secret self) msg)).

Definition verify_signature (self : WebhookVerifier) (payload : pystr)
    (signature : pyval) : result bool :=
  msg <- encode_utf8 payload ;;
  let expected_signature := hexdigest (hmac_sha256 (secret self) msg) in
  compare_digest signature (PyStr expected_signature).

(** ** The Flask handler *)

#[local] Set Warnings "-register-all".

Inductive json : Type :=
| JNull
| JBool (b : bool)
| JNum (repr : pystr)
| JStr (s : pystr)
| JArr (items : list json)
| JObj (fields : list (pystr * json)).

(** What the handler reads from a request: the signature header (absent
    or a string), the raw body, and the outcome of [request.get_json()]
    on this very request. Flask computes that outcome from the raw body
    and the content type; its parser is not modelled, so a request value
    stands for a body together with what the parser makes of it, and no
    statement below carries a parse outcome over to a different body. *)
Record request : Type := mkRequest {
  header_signature : option pystr;
  body : list byte;
  get_json : result json
}.

(** [request.headers.get('X-Webhook-Signature')] *)
Definition headers_get_signature (r : request) : pyval :=
  match header_signature r with
  | Some s => PyStr s
  | None => PyNone
  end.

(** [request.get_data(as_text=True)] *)
Definition get_data_as_text (r : request) : pystr :=
  decode_utf8_replace (body r).

Fixpoint lookup (k : pystr) (fields : list (pystr * json)) : option json :=
  match fields with
  | [] => None
  | (k', v) :: r => if pystr_eqb k k' then Some v else lookup k r
  end.

(** [data.get(key)]: [None] for a missing key; only a dict has [get]. *)
Definition dict_get (data : json) (key : pystr) : result json :=
  match data with
  | JObj fields =>
      match lookup key fields with
      | Some v => Ok v
      | None => Ok JNull
      end
  | _ => Err AttributeError
  end.

(** [event_type == '...'] *)
Definition eq_str (v : json) (s : pystr) : bool :=
  match v with
  | JStr t => pystr_eqb t s
  | _ => false
  end.

(** One [print(f"<label>{value}")] call of the handler that went through. *)
Inductive output : Type :=
| Printed (label : string) (value : json).

Definition response : Type := (N * json)%type.

Definition invalid_signature : response :=
  (401, JObj [(lit "error", JStr (lit "Invalid signature"))]).

Definition received : response :=
  (200, JObj [(lit "received", JBool true)]).

(** Whether the text of [f"{value}"] can be written: the text of a string
    value is the string itself, and [sys.stdout] (UTF-8) refuses a lone
    surrogate; every other value is rendered by [str] and [repr], which
    escape the lone surrogates of the strings inside it. *)
Definition str_encodable (value : json) : bool :=
  match value with
  | JStr s => forallb is_scalar s
  | _ => true
  end.

(** [print(f"<label>{value}")]: one call, written whole or, when the
    text does not encode, not at all, with [UnicodeEncodeError]. The
    text may itself hold line breaks. *)
Definition print (label : string) (value : json) : result output :=
  if str_encodable value then Ok (Printed label value)
  else Err UnicodeEncodeError.

(** The event dispatch of [handle_webhook]. *)
Definition dispatch (event_type event_data : json) : result output :=
  if eq_str event_type (lit "purchase.completed")
  then print "Purchase completed: " event_data
  else if eq_str event_type (lit "content.uploaded")
  then print "Content uploaded: " event_data
  else if eq_str event_type (lit "payout.processed")
  then print "Payout processed: " event_data
  else print "Unknown event type: " event_type.

(** The part of [handle_webhook] after the signature check. *)
Definition process (r : request) : list output * result response :=
  match get_json r with
  | Err e => ([], Err e)
  | Ok data =>
      match dict_get data (lit "type") with
      | Err e => ([], Err e)
      | Ok event_type =>
          match dict_get data (lit "data") with
          | Err e => ([], Err e)
          | Ok event_data =>
              match dispatch event_type event_data with
              | Err e => ([], Err e)
              | Ok out => ([out], Ok received)
              end
          end
      end
  end.

(** [handle_webhook]: what it prints, and the response it returns or the
    exception it raises (which Flask turns into an error response: 500
    for an unhandled exception, the status of an [HTTPException]). *)
Definition handle_webhook (verifier : WebhookVerifier) (r : request)
  : list output * result response :=
  let signature := headers_get_signature r in
  let payload := get_data_as_text r in
  match verify_signature verifier payload signature with
  | Err e => ([], Err e)
  | Ok false => ([], Ok invalid_signature)
  | Ok true => process r
  end.

(** The bytes the handler's verification feeds to the MAC. *)
Definition mac_input (r : request) : result (list byte) :=
  encode_utf8 (get_data_as_text r).

(** The scenario of the specification: secret and payload in ASCII. *)
Definition demo_verifier : WebhookVerifier :=
  mkVerifier (ascii_bytes "whsec_test123").

(** The payload [{"type":"purchase.completed"}]; in the literal below an
    apostrophe stands for the double quote (code point 34). *)
Definition demo_payload : pystr :=
  map (fun c => if c =? 39 then 34 else c)
      (lit "{'type':'purchase.completed'}").

(** ** Definitions used in the statements *)

Definition is_lower_hex (c : N) : bool :=
  ((48 <=? c) && (c <=? 57)) || ((97 <=? c) && (c <=? 102)).

(** Reading a hexadecimal string back, as [bytes.fromhex] does for
    lowercase digits. *)
Definition unhex_digit (c : N) : option N :=
  if (48 <=? c) && (c <=? 57) then Some (c - 48)
  else if (97 <=? c) && (c <=? 102) then Some (c - 87)
  else None.

Fixpoint fromhex (s : pystr) : option (list byte) :=
  match s with
  | [] => Some []
  | hi :: lo :: r =>
      match unhex_digit hi, unhex_digit lo, fromhex r with
      | Some h, Some l, Some t => Some (byte_of_N (16 * h + l) :: t)
      | _, _, _ => None
      end
  | _ => None
  end.

Definition utf8_encodable (s : pystr) : bool := forallb is_scalar s.

(** A request as a sender holding the verifier's secret would issue it:
    the body is the encoded text, the header its signature. *)
Definition signed_request (v : WebhookVerifier) (text : pystr)
    (parsed : result json) : request :=
  mkRequest
    (match generate_signature v text with Ok s => Some s | Err _ => None end)
    (match encode_utf8 text with Ok b => b | Err _ => [] end)
    parsed.

(** A body that is not well-formed UTF-8: the single byte 0xFF. *)
Definition invalid_utf8_request (sig : option pystr) : request :=
  mkRequest sig [xff] (Err (HTTPException 400)).

(** A request for the demo payload carrying a wrong signature. *)
Definition forged_request : request :=
  mkRequest (Some (lit "00"))
            (map byte_of_N demo_payload)
            (Ok (JObj [(lit "type", JStr (lit "purchase.completed"))])).

Definition unsigned_request : request :=
  mkRequest None (map byte_of_N demo_payload)
            (Ok (JObj [(lit "type", JStr (lit "purchase.completed"))])).


(** A correctly signed request whose body is the JSON object [{}]. *)
Definition untyped_request : request :=
  signed_request demo_verifier (lit "{}") (Ok (JObj [])).



(** A JSON text written with apostrophes for its double quotes. *)
Definition json_text (s : string) : pystr :=
  map (fun c => if c =? 39 then 34 else c) (lit s).

(** A correctly signed request for the demo payload, as Flask parses it. *)
Definition purchase_request : request :=
  signed_request demo_verifier demo_payload
    (Ok (JObj [(lit "type", JStr (lit "purchase.completed"))])).


(** A correctly signed request whose body is the JSON array [[]]. *)
Definition array_request : request :=
  signed_request demo_verifier (lit "[]") (Ok (JArr [])).

(** A request for the demo payload whose signature header holds U+00E9. *)
Definition non_ascii_header_request : request :=
  mkRequest (Some [0xE9]) (map byte_of_N demo_payload)
            (Ok (JObj [(lit "type", JStr (lit "purchase.completed"))])).

(** ** [create_flask_webhook_handler] *)


(** ** Helpers of the client: truthiness, [str.join], dicts, [quote] *)

(** [if value:] for an [Optional[str]]: [None] and [''] are false. *)
Definition truthy (v : pyval) : bool :=
  match v with
  | PyStr (_ :: _) => true
  | _ => false
  end.

(** [sep.join(parts)] *)
Fixpoint join (sep : pystr) (parts : list pystr) : pystr :=
  match parts with
  | [] => []
  | p :: rest =>
      match rest with
      | [] => p
      | _ :: _ => p ++ sep ++ join sep rest
      end
  end.

(** A dict with string keys, in insertion order. *)
Definition dict (V : Type) : Type := list (pystr * V).

Fixpoint dict_lookup {V : Type} (k : pystr) (d : dict V) : option V :=
  match d with
  | [] => None
  | (k', v) :: r => if pystr_eqb k k' then Some v else dict_lookup k r
  end.

(** [d[k] = v]: replaces the value of an existing key in place, appends
    a new key. *)
Fixpoint dict_set {V : Type} (k : pystr) (v : V) (d : dict V) : dict V :=
  match d with
  | [] => [(k, v)]
  | (k', v') :: r =>
      if pystr_eqb k k' then (k', v) :: r else (k', v') :: dict_set k v r
  end.

(** [data.get(key, default)] *)
Definition dict_get_default (data : json) (key : pystr) (default : json)
  : result json :=
  match data with
  | JObj fields =>
      match lookup key fields with
      | Some v => Ok v
      | None => Ok default
      end
  | _ => Err AttributeError
  end.

(** The bytes [urllib.parse.quote] leaves alone: letters, digits and
    [_.-~], and its default [safe='/']. *)
Definition quote_safe (b : N) : bool :=
  ((65 <=? b) && (b <=? 90)) || ((97 <=? b) && (b <=? 122))
  || ((48 <=? b) && (b <=? 57))
  || (b =? 95) || (b =? 46) || (b =? 45) || (b =? 126) || (b =? 47).

Definition hex_digit_upper (n : N) : N :=
  if n <? 10 then 48 + n else 55 + n.

(** ['%{:02X}'.format(b)] for a byte outside the safe set. *)
Definition quote_byte (b : byte) : pystr :=
  let n := Byte.to_N b in
  if quote_safe n then [n]
  else [37; hex_digit_upper (n / 16); hex_digit_upper (n mod 16)].

Definition quote_from_bytes (bs : list byte) : pystr := flat_map quote_byte bs.

(** [requests.utils.quote(string)], which is [urllib.parse.quote]: the
    string is encoded as UTF-8 (strict) and quoted byte by byte. *)
Definition quote (s : pystr) : result pystr :=
  bs <- encode_utf8 s ;; Ok (quote_from_bytes bs).

(** ** [class PlatformAPIClient] *)

Module PlatformAPIClient.

(** What [_request] hands to [self.session.request]. Of the keyword
    arguments only [headers] and [json] are modelled: the methods of the
    class pass no others. *)
Record http_request : Type := mkHttpRequest {
  req_method : pystr;
  req_url : pystr;
  req_headers : dict pystr;
  req_json : option json
}.

(** What [_request] reads from the response: [status_code], [text], and
    the value of [response.json()], [None] when it raises
    [JSONDecodeError]. *)
Record http_response : Type := mkHttpResponse {
  status_code : N;
  text : pystr;
  json_value : option json
}.

(** [response.ok]: [raise_for_status] raises for 400..599 only. *)
Definition ok (r : http_response) : bool :=
  negb ((400 <=? status_code r) && (status_code r <? 600)).

(** The exceptions [_request] can raise: a builtin one, or one of its two
    [Exception(f"...")], kept with the values interpolated in the text:
    [f"Invalid JSON response: {response.text}"] and
    [f"API Error ({response.status_code}): {error_msg}"]. *)
Inductive client_exn : Type :=
| Builtin (e : exn)
| InvalidJSONResponse (response_text : pystr)
| APIError (status : N) (error_msg : json).

Inductive outcome (A : Type) : Type :=
| Returned (a : A)
| Raised (e : client_exn).

Arguments Returned {A} a.
Arguments Raised {A} e.

Record t : Type := mkClient {
  api_key : pystr;
  base_url : pystr;
  session_headers : dict pystr
}.

(** [__init__]: the two headers the session is given. *)
Definition __init__ (api_key_arg base_url_arg : pystr) : t :=
  mkClient api_key_arg base_url_arg
    [(lit "Authorization", lit "Bearer " ++ api_key_arg);
     (lit "Content-Type", lit "application/json")].

Definition default_base_url : pystr := lit "https://api.platform.com/v1".

(** [str(u)] for a UUID with the 16 bytes [u]: 32 lowercase hexadecimal
    digits in groups of 8, 4, 4, 4 and 12. *)
Definition uuid_str (u : list byte) : pystr :=
  let h := hexdigest u in
  firstn 8 h ++ lit "-" ++ firstn 4 (skipn 8 h) ++ lit "-"
  ++ firstn 4 (skipn 12 h) ++ lit "-" ++ firstn 4 (skipn 16 h) ++ lit "-"
  ++ skipn 20 h.

(** [_generate_correlation_id], for the UUID that [uuid.uuid4()] returned. *)
Definition _generate_correlation_id (uuid4 : list byte) : pystr :=
  lit "python-" ++ firstn 8 (uuid_str uuid4).

(** The [if not response.ok:] branch of [_request]. *)
Definition error_of (response : http_response) (data : json) : client_exn :=
  match dict_get_default data (lit "error") (JObj []) with
  | Err e => Builtin e
  | Ok err =>
      match dict_get_default err (lit "message") (JStr (lit "Unknown error")) with
      | Err e => Builtin e
      | Ok error_msg => APIError (status_code response) error_msg
      end
  end.

(** The first three statements of [_request]: the URL, the headers with
    the correlation id, and so the request handed to the session.
    [uuid4] stands for the UUID drawn for this call, [headers] for
    [kwargs.pop('headers', {})] ([None]: not given). *)
Definition build_request (self : t) (uuid4 : list byte)
    (endpoint method : pystr) (headers : option (dict pystr))
    (json_arg : option json) : http_request :=
  let url := base_url self ++ endpoint in
  let headers0 := match headers with Some h => h | None => [] end in
  let headers1 :=
    dict_set (lit "X-Correlation-ID") (_generate_correlation_id uuid4) headers0 in
  mkHttpRequest method url headers1 json_arg.

(** [_request]: the request sent through the session, and the value
    returned or the exception raised. [session_request] stands for
    [self.session.request], taken to answer with a response; [json_value]
    is [None] where [response.json()] raises the [JSONDecodeError] that
    the [except] clause catches. *)
Definition _request (self : t) (session_request : http_request -> http_response)
    (uuid4 : list byte) (endpoint method : pystr)
    (headers : option (dict pystr)) (json_arg : option json)
  : list http_request * outcome json :=
  let sent := build_request self uuid4 endpoint method headers json_arg in
  let response := session_request sent in
  match json_value response with
  | None => ([sent], Raised (InvalidJSONResponse (text response)))
  | Some data =>
      if negb (ok response)
      then ([sent], Raised (error_of response data))
      else ([sent], Returned data)
  end.

(** The endpoint built by [get_revenue_metrics]. *)
Definition revenue_endpoint (start_date end_date : pyval) : pystr :=
  let params0 : dict pystr := [] in
  let params1 :=
    match start_date with
    | PyStr (c :: s) => dict_set (lit "startDate") (c :: s) params0
    | _ => params0
    end in
  let params2 :=
    match end_date with
    | PyStr (c :: s) => dict_set (lit "endDate") (c :: s) params1
    | _ => params1
    end in
  let query_string :=
    join (lit "&") (map (fun kv => fst kv ++ lit "=" ++ snd kv) params2) in
  match query_string with
  | _ :: _ => lit "/analytics/revenue?" ++ query_string
  | [] => lit "/analytics/revenue"
  end.

Definition get_revenue_metrics (self : t)
    (session_request : http_request -> http_response) (uuid4 : list byte)
    (start_date end_date : pyval) : list http_request * outcome json :=
  _request self session_request uuid4 (revenue_endpoint start_date end_date)
           (lit "GET") None None.

(** [get_search_suggestions]: the query is quoted before any request is
    made. *)
Definition get_search_suggestions (self : t)
    (session_request : http_request -> http_response) (uuid4 : list byte)
    (query : pystr) : list http_request * outcome json :=
  match quote query with
  | Err e => ([], Raised (Builtin e))
  | Ok q =>
      _request self session_request uuid4 (lit "/search/suggestions?q=" ++ q)
               (lit "GET") None None
  end.

(** The default of [create_webhook_endpoint] for [retry_policy]. *)
Definition default_retry_policy : dict json :=
  [(lit "maxRetries", JNum (lit "3"));
   (lit "backoffMultiplier", JNum (lit "2"));
   (lit "maxBackoffSeconds", JNum (lit "300"))].

(** [retry_policy or {...}]: [None] and the empty dict are false. *)
Definition webhook_endpoint_data (url : pystr) (events : list pystr)
    (retry_policy : option (dict json)) : json :=
  JObj [(lit "url", JStr url);
        (lit "events", JArr (map JStr events));
        (lit "retryPolicy",
         JObj match retry_policy with
              | Some (kv :: r) => kv :: r
              | _ => default_retry_policy
              end)].

Definition create_webhook_endpoint (self : t)
    (session_request : http_request -> http_response) (uuid4 : list byte)
    (url : pystr) (events : list pystr) (retry_policy : option (dict json))
  : list http_request * outcome json :=
  _request self session_request uuid4 (lit "/webhooks/endpoints") (lit "POST")
           None (Some (webhook_endpoint_data url events retry_policy)).

End PlatformAPIClient.

(** ** Further definitions used in the statements *)

(** [s.upper()] on an ASCII string. *)
Definition ascii_upper (s : pystr) : pystr :=
  map (fun c => if (97 <=? c) && (c <=? 122) then c - 32 else c) s.

(** A lowercase letter among the hexadecimal digits. *)
Definition is_hex_letter (c : N) : bool := (97 <=? c) && (c <=? 102).

(** Bytes that occur in no well-formed UTF-8 sequence. *)
Definition never_valid (b : N) : bool :=
  (b =? 0xC0) || (b =? 0xC1) || ((0xF5 <=? b) && (b <? 256)).

(** A character [quote] can produce: a safe one or the percent sign. *)
Definition quote_inert (c : N) : bool := quote_safe c || (c =? 37).

Definition unhex_upper (c : N) : option N :=
  if (48 <=? c) && (c <=? 57) then Some (c - 48)
  else if (65 <=? c) && (c <=? 70) then Some (c - 55)
  else None.

(** Reading a quoted string back into bytes, as
    [urllib.parse.unquote_to_bytes] does. *)
Fixpoint unquote_to_bytes (s : pystr) : option (list byte) :=
  match s with
  | [] => Some []
  | c :: r =>
      if c =? 37 then
        match r with
        | hi :: lo :: r' =>
            match unhex_upper hi, unhex_upper lo, unquote_to_bytes r' with
            | Some h, Some l, Some t => Some (byte_of_N (16 * h + l) :: t)
            | _, _, _ => None
            end
        | _ => None
        end
      else option_map (cons (byte_of_N c)) (unquote_to_bytes r)
  end.

Definition is_object (v : json) : bool :=
  match v with
  | JObj _ => true
  | _ => false
  end.

(** A transport that answers every request with the same response. *)
Definition always (r : PlatformAPIClient.http_response)
  : PlatformAPIClient.http_request -> PlatformAPIClient.http_response :=
  fun _ => r.

Definition demo_client : PlatformAPIClient.t :=
  PlatformAPIClient.__init__ (lit "your-api-key-here")
    PlatformAPIClient.default_base_url.

Definition demo_uuid : list byte :=
  [x00; x01; x02; x03; x04; x05; x46; x07;
   x88; x09; x0a; x0b; x0c; x0d; x0e; x0f].

(** * Properties *)

(** ** Test vectors *)

Example sha256_constants :
  nth 0 SHA256.K 0 = 0x428a2f98 /\ nth 63 SHA256.K 0 = 0xc67178f2
  /\ List.length SHA256.K = 64%nat
  /\ SHA256.ha SHA256.H0 = 0x6a09e667 /\ SHA256.hh SHA256.H0 = 0x5be0cd19.
Proof. repeat split. Qed.

Example sha256_abc :
  hexdigest (SHA256.digest (ascii_bytes "abc"))
  = lit "ba7816bf8f01cfea414140de5dae2223b00361a396177a9cb410ff61f20015ad".
Proof. vm_compute. reflexivity. Qed.

Example hmac_empty :
  hexdigest (hmac_sha256 [] [])
  = lit "b613679a0814d9ec772f95d778c35fc5ff1697c493715653c6c712144292c5ad".
Proof. vm_compute. reflexivity. Qed.

(** RFC 4231, test case 6: a key longer than the block is hashed first. *)
Example hmac_long_key :
  hexdigest (hmac_sha256 (repeat xaa 131)
    (ascii_bytes "Test Using Larger Than Block-Size Key - Hash Key First"))
  = lit "60e431591ee0b67f0d8a26aacbf5b77f8e0bc6213728c5140546040f0ee37f54".
Proof. vm_compute. reflexivity. Qed.

(** A secret and a payload outside ASCII: two-, three- and four-byte
    sequences. *)
Example non_ascii_signature :
  (v <- __init__ (PyStr [0x63; 0x6C; 0xE9]) ;;
   generate_signature v [0xE9; 0x20AC; 0x1F600])
  = Ok (lit "d325e29cc63828edf5ced988afbc047e2120470fe6e3d51ab7568b7c3460fa83").
Proof. vm_compute. reflexivity. Qed.

(** A lone surrogate does not encode. *)
Example surrogate_payload_raises :
  generate_signature demo_verifier [0xD800] = Err UnicodeEncodeError
  /\ verify_signature demo_verifier [0xD800] (PyStr []) = Err UnicodeEncodeError.
Proof. split; reflexivity. Qed.

Example decode_ascii :
  decode_utf8_replace (ascii_bytes "{}") = lit "{}".
Proof. reflexivity. Qed.

Example decode_invalid_start :
  decode_utf8_replace [xff; x41] = [REPLACEMENT; 0x41].
Proof. reflexivity. Qed.

Example decode_truncated :
  decode_utf8_replace [xe2; x82] = [REPLACEMENT].
Proof. reflexivity. Qed.

Example decode_euro :
  decode_utf8_replace [xe2; x82; xac] = [0x20AC]
  /\ encode_utf8 [0x20AC] = Ok [xe2; x82; xac].
Proof. split; reflexivity. Qed.

Example demo_signature :
  generate_signature demo_verifier demo_payload
  = Ok (lit "94655f089ba1437dd98593cda5a8512762099bc52b01ec01b7679a3dfb5bef2d").
Proof. vm_compute. reflexivity. Qed.

(** ** The comparison returns list equality *)

Lemma fold_step_zero (l : list (N * N)) (acc : N) :
  fold_left tscmp_step l acc = 0 <-> acc = 0 /\ Forall (fun xy => fst xy = snd xy) l.
Proof.
  revert acc; induction l as [|[x y] l IH]; intros acc; simpl.
  - split; [intros ->; auto | tauto].
  - rewrite IH. unfold tscmp_step; simpl. rewrite N.lor_eq_0_iff.
    split.
    + intros [[-> Hxy] Hl]. apply N.lxor_eq in Hxy.
      split; [reflexivity | constructor; assumption].
    + intros [-> Hl]. inversion Hl; subst; simpl in *; subst.
      rewrite N.lxor_nilpotent. auto.
Qed.

Lemma combine_diag (a b : list N) :
  List.length a = List.length b ->
  Forall (fun xy : N * N => fst xy = snd xy) (combine a b) <-> a = b.
Proof.
  revert b; induction a as [|x a IH]; intros [|y b] Hlen;
    simpl in *; try discriminate.
  - split; auto.
  - injection Hlen as Hlen. split.
    + intros H; inversion H; subst; simpl in *; subst.
      f_equal. apply IH; assumption.
    + intros [= -> ->]. constructor; [reflexivity | apply IH; auto].
Qed.

Lemma tscmp_true_iff (a b : list N) : tscmp a b = true <-> a = b.
Proof.
  unfold tscmp. rewrite N.eqb_eq, fold_step_zero.
  destruct (Nat.eqb (List.length a) (List.length b)) eqn:Hlen.
  - apply Nat.eqb_eq in Hlen. rewrite (combine_diag a b Hlen). tauto.
  - apply Nat.eqb_neq in Hlen. split.
    + intros [H _]; discriminate.
    + intros ->; contradiction.
Qed.

Lemma tscmp_refl (a : list N) : tscmp a a = true.
Proof. apply tscmp_true_iff; reflexivity. Qed.

Lemma tscmp_false_iff (a b : list N) : tscmp a b = false <-> a <> b.
Proof.
  rewrite <- tscmp_true_iff. destruct (tscmp a b); split; congruence.
Qed.

(** ** Shape of a digest *)

Lemma sha256_digest_length (msg : list byte) :
  List.length (SHA256.digest msg) = 32%nat.
Proof. unfold SHA256.digest. rewrite length_map. reflexivity. Qed.

Lemma hmac_sha256_length (key msg : list byte) :
  List.length (hmac_sha256 key msg) = 32%nat.
Proof. unfold hmac_sha256. apply sha256_digest_length. Qed.

Lemma hex_digit_lower (d : N) : d < 16 -> is_lower_hex (hex_digit d) = true.
Proof.
  intros Hd. unfold is_lower_hex, hex_digit.
  destruct (N.ltb_spec d 10);
    apply orb_true_iff; [left | right]; apply andb_true_iff;
    split; apply N.leb_le; lia.
Qed.

Lemma hex_of_byte_lower (b : byte) :
  forallb is_lower_hex (hex_of_byte b) = true.
Proof.
  pose proof (Byte.to_N_bounded b) as Hb.
  unfold hex_of_byte; simpl.
  rewrite !hex_digit_lower; [reflexivity | |].
  - apply N.mod_lt; discriminate.
  - apply N.Div0.div_lt_upper_bound; lia.
Qed.

Lemma hexdigest_length (bs : list byte) :
  List.length (hexdigest bs) = (2 * List.length bs)%nat.
Proof.
  induction bs as [|b bs IH]; simpl; [reflexivity | rewrite IH; lia].
Qed.

Lemma hexdigest_lower (bs : list byte) :
  forallb is_lower_hex (hexdigest bs) = true.
Proof.
  induction bs as [|b bs IH]; [reflexivity |].
  change (hexdigest (b :: bs)) with (hex_of_byte b ++ hexdigest bs).
  rewrite forallb_app, hex_of_byte_lower, IH. reflexivity.
Qed.

Lemma lower_hex_ascii (s : pystr) :
  forallb is_lower_hex s = true -> is_ascii s = true.
Proof.
  unfold is_ascii. rewrite !forallb_forall. intros H c Hc.
  specialize (H c Hc). unfold is_lower_hex in H.
  apply N.ltb_lt.
  apply orb_true_iff in H as [H | H]; apply andb_true_iff in H as [_ H];
    apply N.leb_le in H; lia.
Qed.

Lemma hexdigest_ascii (bs : list byte) : is_ascii (hexdigest bs) = true.
Proof. apply lower_hex_ascii, hexdigest_lower. Qed.

Lemma fromhex_hex_of_byte (b : byte) (r : pystr) :
  fromhex (hex_of_byte b ++ r) = option_map (cons b) (fromhex r).
Proof.
  destruct b; cbn [hex_of_byte Byte.to_N app fromhex];
    vm_compute unhex_digit; vm_compute byte_of_N;
    destruct (fromhex r); reflexivity.
Qed.

Lemma fromhex_hexdigest (bs : list byte) : fromhex (hexdigest bs) = Some bs.
Proof.
  induction bs as [|b bs IH]; [reflexivity |].
  change (hexdigest (b :: bs)) with (hex_of_byte b ++ hexdigest bs).
  rewrite fromhex_hex_of_byte, IH. reflexivity.
Qed.

(** ** The UTF-8 codec: decoding undoes encoding *)

(** Linear arithmetic with division and remainder by constants. *)
Ltac dlia := Zify.zify; Z.to_euclidean_division_equations; lia.

(** Settle a boolean test on bytes from the bounds in the context. *)
Ltac btest :=
  unfold second_ok3, second_ok4; unfold is_cont, is_surrogate;
  repeat match goal with
         | |- context [?a <? ?b] => destruct (N.ltb_spec a b)
         | |- context [?a <=? ?b] => destruct (N.leb_spec a b)
         | |- context [?a =? ?b] => destruct (N.eqb_spec a b)
         end;
  cbn [andb orb negb]; try reflexivity; exfalso; dlia.

(** Resolve the outermost conditional of the decoder. *)
Ltac step_if :=
  match goal with
  | |- (if ?t then _ else _) = _ =>
      first [ replace t with true by (symmetry; btest)
            | replace t with false by (symmetry; btest) ];
      cbv iota
  end.

Lemma some_eq {A : Type} (x y : A) : Some x = Some y -> x = y.
Proof. congruence. Qed.

(** Replace the encoder's output list by its bytes, without reducing them. *)
Ltac take_bytes :=
  let H := fresh in intros H; apply some_eq in H; subst.

Lemma byte_of_N_to_N (n : N) : n < 256 -> Byte.to_N (byte_of_N n) = n.
Proof.
  intros Hn. unfold byte_of_N. rewrite N.mod_small by assumption.
  destruct (Byte.of_N n) as [b|] eqn:E.
  - apply Byte.to_of_N; assumption.
  - apply Byte.of_N_None_iff in E. lia.
Qed.

Lemma encode_cp_bytes (c : N) (l : list N) :
  encode_cp c = Some l -> Forall (fun b => b < 256) l.
Proof.
  unfold encode_cp, is_surrogate.
  repeat match goal with
         | |- context [?a <? ?b] => destruct (N.ltb_spec a b)
         | |- context [?a <=? ?b] => destruct (N.leb_spec a b)
         end; cbn [andb]; try discriminate; take_bytes;
    repeat (apply Forall_cons; [dlia |]); apply Forall_nil.
Qed.

Lemma decode_encode_cp (c : N) (l rest : list N) :
  encode_cp c = Some l ->
  decode_replace (l ++ rest) = c :: decode_replace rest.
Proof.
  unfold encode_cp.
  destruct (N.ltb_spec c 0x80) as [H1|H1].
  { take_bytes. cbn [app decode_replace]. step_if. reflexivity. }
  destruct (N.ltb_spec c 0x800) as [H2|H2].
  { take_bytes. cbn [app decode_replace].
    do 4 step_if. f_equal. dlia. }
  destruct (N.ltb_spec c 0x10000) as [H3|H3].
  { destruct (is_surrogate c) eqn:Hs; [discriminate |].
    assert (c < 0xD800 \/ 0xE000 <= c) as Hs'.
    { unfold is_surrogate in Hs.
      destruct (N.leb_spec 0xD800 c); destruct (N.ltb_spec c 0xE000);
        simpl in Hs; try discriminate; lia. }
    take_bytes. cbn [app decode_replace].
    do 6 step_if. f_equal. dlia. }
  destruct (N.ltb_spec c 0x110000) as [H4|H4]; [| discriminate].
  take_bytes. cbn [app decode_replace].
  do 7 step_if. f_equal. dlia.
Qed.

Lemma to_N_byte_of_N_list (l : list N) :
  Forall (fun b => b < 256) l -> bytes_to_N (map byte_of_N l) = l.
Proof.
  induction 1 as [|b l Hb _ IH]; [reflexivity |].
  unfold bytes_to_N in *; simpl. rewrite byte_of_N_to_N, IH; auto.
Qed.

(** Decoding the UTF-8 encoding of a string gives the string back. *)
Lemma decode_encode_utf8 (s : pystr) (bs : list byte) :
  encode_utf8 s = Ok bs -> decode_utf8_replace bs = s.
Proof.
  revert bs; induction s as [|c r IH]; intros bs; cbn [encode_utf8].
  - intros [= <-]. reflexivity.
  - destruct (encode_cp c) as [l|] eqn:Hc; [| discriminate].
    destruct (encode_utf8 r) as [t|e]; [| discriminate].
    cbn [bind]. intros Hbs. injection Hbs as <-.
    unfold decode_utf8_replace, bytes_to_N. rewrite map_app.
    change (map Byte.to_N (map byte_of_N l)) with (bytes_to_N (map byte_of_N l)).
    rewrite (to_N_byte_of_N_list l (encode_cp_bytes c l Hc)).
    rewrite (decode_encode_cp c l _ Hc). f_equal. apply IH. reflexivity.
Qed.

(** ** The UTF-8 codec: which strings encode *)

Lemma encode_cp_scalar (c : N) :
  is_scalar c = true -> exists l, encode_cp c = Some l.
Proof.
  unfold is_scalar, encode_cp. intros H.
  apply andb_true_iff in H as [Hlt Hs]. apply negb_true_iff in Hs.
  rewrite Hs, Hlt.
  destruct (c <? 128); [eauto |].
  destruct (c <? 2048); [eauto |].
  destruct (c <? 65536); eauto.
Qed.

Lemma encode_cp_not_scalar (c : N) :
  is_scalar c = false -> encode_cp c = None.
Proof.
  unfold is_scalar, encode_cp, is_surrogate. intros H.
  repeat match goal with
         | |- context [?a <? ?b] => destruct (N.ltb_spec a b)
         | |- context [?a <=? ?b] => destruct (N.leb_spec a b)
         end; cbn [andb]; try reflexivity; exfalso;
    repeat match type of H with
           | context [?a <? ?b] => destruct (N.ltb_spec a b)
           | context [?a <=? ?b] => destruct (N.leb_spec a b)
           end; cbn in H; try discriminate; lia.
Qed.

Lemma encode_utf8_encodable (s : pystr) :
  utf8_encodable s = true -> exists bs, encode_utf8 s = Ok bs.
Proof.
  unfold utf8_encodable.
  induction s as [|c r IH]; cbn [forallb encode_utf8]; [eauto |].
  intros H. apply andb_true_iff in H as [Hc Hr].
  destruct (encode_cp_scalar c Hc) as [l ->].
  destruct (IH Hr) as [t ->]. cbn [bind]. eauto.
Qed.

Lemma encode_utf8_not_encodable (s : pystr) :
  utf8_encodable s = false -> encode_utf8 s = Err UnicodeEncodeError.
Proof.
  unfold utf8_encodable.
  induction s as [|c r IH]; cbn [forallb encode_utf8]; [discriminate |].
  intros H. destruct (is_scalar c) eqn:Hc.
  - destruct (encode_cp_scalar c Hc) as [l ->].
    rewrite (IH H). reflexivity.
  - rewrite (encode_cp_not_scalar c Hc). reflexivity.
Qed.

Lemma encode_utf8_ok_encodable (s : pystr) (bs : list byte) :
  encode_utf8 s = Ok bs -> utf8_encodable s = true.
Proof.
  intros H. destruct (utf8_encodable s) eqn:E; [reflexivity |].
  rewrite (encode_utf8_not_encodable s E) in H. discriminate.
Qed.

(** ** The replacing decoder only yields encodable text *)

Lemma is_cont_spec (b : N) : is_cont b = true -> 0x80 <= b < 0xC0.
Proof.
  unfold is_cont. intros H. apply andb_true_iff in H as [H1 H2].
  apply N.leb_le in H1. apply N.ltb_lt in H2. lia.
Qed.

Lemma second_ok3_spec (b0 b1 : N) :
  second_ok3 b0 b1 = true ->
  0x80 <= b1 < 0xC0 /\ (b0 = 0xE0 -> 0xA0 <= b1) /\ (b0 = 0xED -> b1 < 0xA0).
Proof.
  unfold second_ok3. intros H. apply andb_true_iff in H as [H1 H2].
  apply is_cont_spec in H1. apply negb_true_iff in H2.
  destruct (N.ltb_spec b1 0xA0); apply N.eqb_neq in H2; lia.
Qed.

Lemma second_ok4_spec (b0 b1 : N) :
  second_ok4 b0 b1 = true ->
  0x80 <= b1 < 0xC0 /\ (b0 = 0xF0 -> 0x90 <= b1) /\ (b0 = 0xF4 -> b1 < 0x90).
Proof.
  unfold second_ok4. intros H. apply andb_true_iff in H as [H1 H2].
  apply is_cont_spec in H1. apply negb_true_iff in H2.
  destruct (N.ltb_spec b1 0x90); apply N.eqb_neq in H2; lia.
Qed.

Lemma is_scalar_intro (c : N) :
  c < 0xD800 \/ 0xE000 <= c < 0x110000 -> is_scalar c = true.
Proof.
  intros H. unfold is_scalar, is_surrogate.
  destruct (N.ltb_spec c 0x110000); destruct (N.leb_spec 0xD800 c);
    destruct (N.ltb_spec c 0xE000); cbn; try reflexivity; lia.
Qed.

(** Turn the decoder's boolean tests into bounds. *)
Ltac bounds :=
  repeat match goal with
         | H : (_ <? _) = true |- _ => apply N.ltb_lt in H
         | H : (_ <? _) = false |- _ => apply N.ltb_ge in H
         | H : (_ <=? _) = true |- _ => apply N.leb_le in H
         | H : (_ <=? _) = false |- _ => apply N.leb_gt in H
         | H : (_ || _) = false |- _ =>
             apply orb_false_iff in H; destruct H
         | H : is_cont _ = true |- _ => apply is_cont_spec in H
         | H : second_ok3 _ _ = true |- _ =>
             apply second_ok3_spec in H; destruct H as (? & ? & ?)
         | H : second_ok4 _ _ = true |- _ =>
             apply second_ok4_spec in H; destruct H as (? & ? & ?)
         | H : Forall _ (_ :: _) |- _ => apply Forall_cons_iff in H; destruct H
         end.

Lemma decode_replace_encodable_le (n : nat) (bs : list N) :
  (List.length bs <= n)%nat ->
  Forall (fun b => b < 256) bs ->
  utf8_encodable (decode_replace bs) = true.
Proof.
  unfold utf8_encodable. revert bs.
  induction n as [|n IH]; intros [|b0 r0] Hlen Hb; try reflexivity;
    [simpl in Hlen; lia |].
  assert (Hrec : forall r, (List.length r <= n)%nat ->
                 Forall (fun b => b < 256) r ->
                 forallb is_scalar (REPLACEMENT :: decode_replace r) = true).
  { intros r Hr Hbr. cbn [forallb]. rewrite (IH r Hr Hbr). reflexivity. }
  cbn [decode_replace].
  repeat match goal with
         | |- forallb _ (if ?t then _ else _) = true => destruct t eqn:?
         | |- forallb _ (match ?l with [] => _ | _ :: _ => _ end) = true =>
             destruct l
         end;
    try reflexivity;
    bounds; cbn [List.length] in Hlen;
    try (apply Hrec; [cbn [List.length]; lia | repeat constructor; assumption]);
    cbn [forallb]; apply andb_true_intro;
    (split; [apply is_scalar_intro; dlia | apply IH; [lia | assumption]]).
Qed.

Lemma decode_utf8_replace_encodable (bs : list byte) :
  utf8_encodable (decode_utf8_replace bs) = true.
Proof.
  apply (decode_replace_encodable_le (List.length (bytes_to_N bs)));
    [reflexivity |].
  unfold bytes_to_N. apply Forall_forall. intros b Hb.
  apply in_map_iff in Hb as [x [<- _]].
  pose proof (Byte.to_N_bounded x). lia.
Qed.

(** The handler's text always encodes: [payload.encode] cannot raise there. *)
Lemma mac_input_ok (r : request) : exists m, mac_input r = Ok m.
Proof.
  apply encode_utf8_encodable, decode_utf8_replace_encodable.
Qed.

(** ** [WebhookVerifier]: signing and verifying *)

Lemma generate_signature_encodable (self : WebhookVerifier) (P : pystr) :
  utf8_encodable P = true ->
  exists msg, encode_utf8 P = Ok msg
    /\ generate_signature self P = Ok (hexdigest (hmac_sha256 (secret self) msg)).
Proof.
  intros HP. destruct (encode_utf8_encodable P HP) as [msg Hmsg].
  exists msg. unfold generate_signature. rewrite Hmsg. auto.
Qed.

Lemma verify_signature_encodable (self : WebhookVerifier) (P : pystr)
    (msg : list byte) (C : pyval) :
  encode_utf8 P = Ok msg ->
  verify_signature self P C
  = compare_digest C (PyStr (hexdigest (hmac_sha256 (secret self) msg))).
Proof. intros Hmsg. unfold verify_signature. rewrite Hmsg. reflexivity. Qed.

Lemma compare_digest_ascii (C sig : pystr) :
  is_ascii C = true -> is_ascii sig = true ->
  compare_digest (PyStr C) (PyStr sig) = Ok (tscmp C sig).
Proof. intros HC Hs. unfold compare_digest. rewrite HC, Hs. reflexivity. Qed.

Lemma compare_digest_non_ascii (C sig : pystr) :
  is_ascii C = false -> compare_digest (PyStr C) (PyStr sig) = Err TypeError.
Proof. intros HC. unfold compare_digest. rewrite HC. reflexivity. Qed.

Lemma compare_digest_none (b : pyval) : compare_digest PyNone b = Err TypeError.
Proof. reflexivity. Qed.

(** Verification against a signature issued for another payload succeeds
    exactly when the two MACs collide. *)
Lemma verify_other_payload (self : WebhookVerifier) (P P' : pystr)
    (m m' : list byte) :
  encode_utf8 P = Ok m -> encode_utf8 P' = Ok m' ->
  exists b,
    verify_signature self P'
      (PyStr (hexdigest (hmac_sha256 (secret self) m))) = Ok b
    /\ (b = true <-> hmac_sha256 (secret self) m = hmac_sha256 (secret self) m').
Proof.
  intros Hm Hm'. rewrite (verify_signature_encodable self P' m' _ Hm').
  rewrite compare_digest_ascii by apply hexdigest_ascii.
  eexists; split; [reflexivity |]. rewrite tscmp_true_iff. split.
  - intros H. apply (f_equal fromhex) in H.
    rewrite !fromhex_hexdigest in H. congruence.
  - intros ->. reflexivity.
Qed.

(** C1, as the claim states it, fails: for a payload holding a lone
    surrogate [generate_signature] raises, and no candidate verifies. *)
Lemma surrogate_payload_not_verified :
  generate_signature demo_verifier [0xD800] = Err UnicodeEncodeError
  /\ forall C, verify_signature demo_verifier [0xD800] C <> Ok true.
Proof. split; [reflexivity | intros C; discriminate]. Qed.

(** C1 (amended): for every verifier (whatever secret it holds) and every
    payload string that encodes as UTF-8, [generate_signature] returns a
    signature and [verify_signature] on the same payload and that
    signature returns [True]. *)
Theorem verify_generated_signature (self : WebhookVerifier) (P : pystr) :
  utf8_encodable P = true ->
  exists sig,
    generate_signature self P = Ok sig
    /\ verify_signature self P (PyStr sig) = Ok true.
Proof.
  intros HP. destruct (generate_signature_encodable self P HP) as (msg & Hm & Hg).
  eexists; split; [exact Hg |].
  rewrite (verify_signature_encodable self P msg _ Hm).
  rewrite compare_digest_ascii by apply hexdigest_ascii.
  rewrite tscmp_refl. reflexivity.
Qed.

Lemma verify_generated_signature_witness :
  utf8_encodable demo_payload = true
  /\ exists sig,
       generate_signature demo_verifier demo_payload = Ok sig
       /\ verify_signature demo_verifier demo_payload (PyStr sig) = Ok true.
Proof.
  split; [reflexivity |].
  apply (verify_generated_signature demo_verifier demo_payload). reflexivity.
Defined.

(** C8, as the claim states it, fails: for a payload holding a lone
    surrogate [generate_signature] returns no string at all. *)
Lemma surrogate_payload_not_signed :
  ~ exists sig, generate_signature demo_verifier [0xD800] = Ok sig.
Proof. intros [sig H]. discriminate. Qed.

(** C8 (amended): for every verifier and every payload string that encodes
    as UTF-8, whatever its length, [generate_signature] returns a string of exactly
    64 characters, all of them lowercase hexadecimal digits, which reads
    back as the 32 bytes of the HMAC-SHA-256 of the encoded payload under
    the verifier's secret. *)
Theorem generate_signature_format (self : WebhookVerifier) (P : pystr) :
  utf8_encodable P = true ->
  exists msg sig,
    encode_utf8 P = Ok msg
    /\ generate_signature self P = Ok sig
    /\ List.length sig = 64%nat
    /\ forallb is_lower_hex sig = true
    /\ fromhex sig = Some (hmac_sha256 (secret self) msg)
    /\ List.length (hmac_sha256 (secret self) msg) = 32%nat.
Proof.
  intros HP. destruct (generate_signature_encodable self P HP) as (msg & Hm & Hg).
  exists msg, (hexdigest (hmac_sha256 (secret self) msg)).
  split; [exact Hm |]. split; [exact Hg |]. split; [| split; [| split]].
  - rewrite hexdigest_length, hmac_sha256_length. reflexivity.
  - apply hexdigest_lower.
  - apply fromhex_hexdigest.
  - apply hmac_sha256_length.
Qed.

Lemma generate_signature_format_witness :
  utf8_encodable demo_payload = true
  /\ exists msg sig,
       encode_utf8 demo_payload = Ok msg
       /\ generate_signature demo_verifier demo_payload = Ok sig
       /\ List.length sig = 64%nat
       /\ forallb is_lower_hex sig = true
       /\ fromhex sig = Some (hmac_sha256 (secret demo_verifier) msg)
       /\ List.length (hmac_sha256 (secret demo_verifier) msg) = 32%nat.
Proof.
  split; [reflexivity |].
  apply (generate_signature_format demo_verifier demo_payload). reflexivity.
Defined.

(** ** Construction of the verifier *)

(** C2, as the claim states it, fails: the empty secret is accepted. *)
Lemma init_empty_secret_accepted :
  __init__ (PyStr []) = Ok (mkVerifier [])
  /\ generate_signature (mkVerifier []) []
     = Ok (lit "b613679a0814d9ec772f95d778c35fc5ff1697c493715653c6c712144292c5ad").
Proof. split; vm_compute; reflexivity. Qed.

(** C2 (amended): construction fails at once (with [AttributeError]) when
    the secret is absent, that is [None]; the empty string is accepted,
    and the verifier built from it signs and verifies every encodable
    payload with the HMAC under the empty key. *)
Theorem init_secret_check (P : pystr) :
  utf8_encodable P = true ->
  __init__ PyNone = Err AttributeError
  /\ __init__ (PyStr []) = Ok (mkVerifier [])
  /\ exists msg,
       encode_utf8 P = Ok msg
       /\ generate_signature (mkVerifier []) P
          = Ok (hexdigest (hmac_sha256 [] msg))
       /\ verify_signature (mkVerifier []) P
            (PyStr (hexdigest (hmac_sha256 [] msg))) = Ok true.
Proof.
  intros HP. split; [reflexivity |]. split; [reflexivity |].
  destruct (generate_signature_encodable (mkVerifier []) P HP) as (msg & Hm & Hg).
  exists msg. split; [exact Hm |]. split; [exact Hg |].
  rewrite (verify_signature_encodable _ P msg _ Hm).
  rewrite compare_digest_ascii by apply hexdigest_ascii.
  rewrite tscmp_refl. reflexivity.
Qed.

Lemma init_secret_check_witness :
  utf8_encodable demo_payload = true
  /\ __init__ PyNone = Err AttributeError
  /\ __init__ (PyStr []) = Ok (mkVerifier [])
  /\ exists msg,
       encode_utf8 demo_payload = Ok msg
       /\ generate_signature (mkVerifier []) demo_payload
          = Ok (hexdigest (hmac_sha256 [] msg))
       /\ verify_signature (mkVerifier []) demo_payload
            (PyStr (hexdigest (hmac_sha256 [] msg))) = Ok true.
Proof.
  split; [reflexivity |]. apply (init_secret_check demo_payload). reflexivity.
Defined.

(** ** Verification of a candidate signature *)

(** C3, as the claim states it, fails: a candidate string with a
    non-ASCII character (here U+00E9) makes [verify_signature] raise. *)
Lemma verify_signature_non_ascii_raises :
  verify_signature demo_verifier demo_payload (PyStr [0xE9]) = Err TypeError.
Proof. vm_compute. reflexivity. Qed.

(** C3 (amended): for an encodable payload, a candidate string of ASCII
    characters is compared with the expected signature and the result is
    [True] exactly when the two strings are equal, [False] otherwise; a
    candidate string with a non-ASCII character raises [TypeError]. *)
Theorem verify_signature_semantics (self : WebhookVerifier) (P C : pystr) :
  utf8_encodable P = true ->
  exists sig,
    generate_signature self P = Ok sig
    /\ (is_ascii C = true ->
        exists b, verify_signature self P (PyStr C) = Ok b
                  /\ (b = true <-> C = sig)
                  /\ (b = false <-> C <> sig))
    /\ (is_ascii C = false ->
        verify_signature self P (PyStr C) = Err TypeError).
Proof.
  intros HP. destruct (generate_signature_encodable self P HP) as (msg & Hm & Hg).
  eexists; split; [exact Hg |].
  rewrite (verify_signature_encodable self P msg _ Hm). split.
  - intros HC. rewrite compare_digest_ascii by (assumption || apply hexdigest_ascii).
    eexists; split; [reflexivity |].
    split; [apply tscmp_true_iff | apply tscmp_false_iff].
  - apply compare_digest_non_ascii.
Qed.

Lemma verify_signature_semantics_witness :
  utf8_encodable demo_payload = true
  /\ exists sig,
       generate_signature demo_verifier demo_payload = Ok sig
       /\ (is_ascii (lit "00") = true ->
           exists b,
             verify_signature demo_verifier demo_payload (PyStr (lit "00")) = Ok b
             /\ (b = true <-> lit "00" = sig)
             /\ (b = false <-> lit "00" <> sig))
       /\ (is_ascii (lit "00") = false ->
           verify_signature demo_verifier demo_payload (PyStr (lit "00"))
           = Err TypeError).
Proof.
  split; [reflexivity |].
  apply (verify_signature_semantics demo_verifier demo_payload (lit "00")).
  reflexivity.
Defined.

(** The scenario of the specification: the pinned signature verifies, the
    same string with its last character changed does not, and neither
    does the empty string. *)
Example demo_verify :
  verify_signature demo_verifier demo_payload
    (PyStr (lit "94655f089ba1437dd98593cda5a8512762099bc52b01ec01b7679a3dfb5bef2d"))
  = Ok true
  /\ verify_signature demo_verifier demo_payload
       (PyStr (lit "94655f089ba1437dd98593cda5a8512762099bc52b01ec01b7679a3dfb5bef2e"))
     = Ok false
  /\ verify_signature demo_verifier demo_payload (PyStr []) = Ok false.
Proof. split; [| split]; vm_compute; reflexivity. Qed.

(** ** The handler: what is authenticated *)

(** C4, as the claim states it, fails: for the body 0xFF the MAC is
    computed over the three bytes of U+FFFD, not over the body. *)
Lemma mac_input_not_raw_body :
  mac_input (invalid_utf8_request None) = Ok [xef; xbf; xbd]
  /\ mac_input (invalid_utf8_request None)
     <> Ok (body (invalid_utf8_request None)).
Proof. split; [reflexivity | discriminate]. Qed.

(** A sender that signs the raw body 0xFF is turned away: the signature
    over the raw bytes is not the one the handler expects. *)
Example raw_signature_rejected :
  handle_webhook demo_verifier
    (invalid_utf8_request
       (Some (hexdigest (hmac_sha256 (secret demo_verifier) [xff]))))
  = ([], Ok invalid_signature).
Proof. vm_compute. reflexivity. Qed.

(** Two different bodies are authenticated by the same signature. *)
Example distinct_bodies_same_mac_input :
  mac_input (mkRequest None [xff] (Err (HTTPException 400)))
  = mac_input (mkRequest None [xfe] (Err (HTTPException 400))).
Proof. reflexivity. Qed.

(** C4 (amended): the handler computes the HMAC over the UTF-8 encoding of
    the body decoded as text with replacement. That encoding always
    exists, and it is the raw body exactly when the raw body is
    well-formed UTF-8, that is the encoding of some string. *)
Theorem handler_mac_over_reencoded_text (self : WebhookVerifier) (r : request) :
  exists m,
    mac_input r = Ok m
    /\ verify_signature self (get_data_as_text r) (headers_get_signature r)
       = compare_digest (headers_get_signature r)
           (PyStr (hexdigest (hmac_sha256 (secret self) m)))
    /\ (m = body r <-> exists text, encode_utf8 text = Ok (body r)).
Proof.
  destruct (mac_input_ok r) as [m Hm]. exists m.
  split; [exact Hm |]. split.
  - apply verify_signature_encodable. exact Hm.
  - split.
    + intros ->. exists (get_data_as_text r). exact Hm.
    + intros [text Ht]. unfold mac_input, get_data_as_text in Hm.
      rewrite (decode_encode_utf8 text (body r) Ht) in Hm. congruence.
Qed.

(** ** The handler: responses *)

Lemma handle_webhook_compare (self : WebhookVerifier) (r : request) :
  exists m,
    mac_input r = Ok m
    /\ verify_signature self (get_data_as_text r) (headers_get_signature r)
       = compare_digest (headers_get_signature r)
           (PyStr (hexdigest (hmac_sha256 (secret self) m))).
Proof.
  destruct (mac_input_ok r) as [m Hm]. exists m.
  split; [exact Hm | apply verify_signature_encodable; exact Hm].
Qed.

(** C6, as the claim states it, fails: a request whose signature header
    holds a non-ASCII character fails verification and gets no 401: the
    handler raises [TypeError]. *)
Lemma failed_verification_without_401 :
  verify_signature demo_verifier (get_data_as_text non_ascii_header_request)
    (headers_get_signature non_ascii_header_request) = Err TypeError
  /\ handle_webhook demo_verifier non_ascii_header_request = ([], Err TypeError)
  /\ handle_webhook demo_verifier non_ascii_header_request
     <> ([], Ok invalid_signature).
Proof.
  split; [vm_compute; reflexivity |].
  split; [vm_compute; reflexivity |].
  vm_compute. discriminate.
Qed.

(** C6 (amended): for every request whose signature fails verification
    ([verify_signature] does not return [True]) the handler prints
    nothing and does not reach the processing of the event: its outcome
    does not depend on what [get_json] would return. It answers 401 with
    the invalid-signature body when the header is an ASCII string (then
    [verify_signature] returned [False]); when the header is missing or
    holds a non-ASCII character it raises [TypeError] instead. *)
Theorem failed_verification_not_processed (self : WebhookVerifier) (r : request) :
  verify_signature self (get_data_as_text r) (headers_get_signature r)
  <> Ok true ->
  fst (handle_webhook self r) = []
  /\ (forall parsed,
        handle_webhook self (mkRequest (header_signature r) (body r) parsed)
        = handle_webhook self r)
  /\ (forall s,
        header_signature r = Some s -> is_ascii s = true ->
        verify_signature self (get_data_as_text r) (headers_get_signature r)
        = Ok false
        /\ handle_webhook self r = ([], Ok invalid_signature))
  /\ fst invalid_signature = 401
  /\ (header_signature r = None
      \/ (exists s, header_signature r = Some s /\ is_ascii s = false) ->
      handle_webhook self r = ([], Err TypeError)).
Proof.
  intros H. destruct (handle_webhook_compare self r) as (m & _ & Hv).
  assert (Hp : forall parsed,
             handle_webhook self (mkRequest (header_signature r) (body r) parsed)
             = handle_webhook self r).
  { intros parsed. unfold handle_webhook.
    change (verify_signature self
              (get_data_as_text (mkRequest (header_signature r) (body r) parsed))
              (headers_get_signature
                 (mkRequest (header_signature r) (body r) parsed)))
      with (verify_signature self (get_data_as_text r) (headers_get_signature r)).
    destruct (verify_signature self (get_data_as_text r) (headers_get_signature r))
      as [[|]|e]; [congruence | reflexivity | reflexivity]. }
  split; [| split; [exact Hp | split; [| split; [reflexivity |]]]].
  - unfold handle_webhook.
    destruct (verify_signature self (get_data_as_text r) (headers_get_signature r))
      as [[|]|e]; [congruence | reflexivity | reflexivity].
  - intros s Hs Ha. unfold handle_webhook. rewrite Hv in *.
    unfold headers_get_signature in *. rewrite Hs in *.
    rewrite compare_digest_ascii in * by (assumption || apply hexdigest_ascii).
    destruct (tscmp s _); [congruence | split; reflexivity].
  - intros Hh. unfold handle_webhook. rewrite Hv.
    unfold headers_get_signature.
    destruct Hh as [-> | (s & -> & Hs)]; [reflexivity |].
    rewrite (compare_digest_non_ascii s _ Hs). reflexivity.
Qed.

Lemma failed_verification_not_processed_witness :
  verify_signature demo_verifier (get_data_as_text forged_request)
    (headers_get_signature forged_request) <> Ok true
  /\ fst (handle_webhook demo_verifier forged_request) = []
  /\ (forall parsed,
        handle_webhook demo_verifier
          (mkRequest (header_signature forged_request) (body forged_request) parsed)
        = handle_webhook demo_verifier forged_request)
  /\ (forall s,
        header_signature forged_request = Some s -> is_ascii s = true ->
        verify_signature demo_verifier (get_data_as_text forged_request)
          (headers_get_signature forged_request) = Ok false
        /\ handle_webhook demo_verifier forged_request = ([], Ok invalid_signature))
  /\ fst invalid_signature = 401
  /\ (header_signature forged_request = None
      \/ (exists s, header_signature forged_request = Some s /\ is_ascii s = false) ->
      handle_webhook demo_verifier forged_request = ([], Err TypeError)).
Proof.
  assert (H : verify_signature demo_verifier (get_data_as_text forged_request)
                (headers_get_signature forged_request) <> Ok true)
    by (vm_compute; discriminate).
  split; [exact H |].
  exact (failed_verification_not_processed demo_verifier forged_request H).
Defined.

(** No event is printed unless [verify_signature] returned [True]. *)
Lemma no_output_unless_verified (self : WebhookVerifier) (r : request) :
  verify_signature self (get_data_as_text r) (headers_get_signature r)
  <> Ok true ->
  fst (handle_webhook self r) = [].
Proof.
  intros H. unfold handle_webhook.
  destruct (verify_signature self (get_data_as_text r) (headers_get_signature r))
    as [[|]|e]; [congruence | reflexivity | reflexivity].
Qed.

(** C9: for every request without the signature header the handler
    passes [None] to [verify_signature], which raises [TypeError]; the
    handler raises it too instead of answering 401. *)
Theorem missing_header_raises (self : WebhookVerifier) (r : request) :
  header_signature r = None ->
  headers_get_signature r = PyNone
  /\ verify_signature self (get_data_as_text r) (headers_get_signature r)
     = Err TypeError
  /\ handle_webhook self r = ([], Err TypeError)
  /\ handle_webhook self r <> ([], Ok invalid_signature).
Proof.
  intros H.
  assert (Hs : headers_get_signature r = PyNone)
    by (unfold headers_get_signature; rewrite H; reflexivity).
  assert (Hv : verify_signature self (get_data_as_text r)
                 (headers_get_signature r) = Err TypeError).
  { destruct (handle_webhook_compare self r) as (m & _ & ->).
    rewrite Hs. reflexivity. }
  split; [exact Hs |]. split; [exact Hv |].
  unfold handle_webhook. rewrite Hv. split; [reflexivity | discriminate].
Qed.

Lemma missing_header_raises_witness :
  header_signature unsigned_request = None
  /\ headers_get_signature unsigned_request = PyNone
  /\ verify_signature demo_verifier (get_data_as_text unsigned_request)
       (headers_get_signature unsigned_request) = Err TypeError
  /\ handle_webhook demo_verifier unsigned_request = ([], Err TypeError)
  /\ handle_webhook demo_verifier unsigned_request <> ([], Ok invalid_signature).
Proof.
  split; [reflexivity |].
  apply (missing_header_raises demo_verifier unsigned_request). reflexivity.
Defined.

(** ** The handler: verified requests *)









(** The handler on concrete requests: a recognised event and an event
    type without a branch. *)
Example handle_purchase :
  handle_webhook demo_verifier purchase_request
  = ([Printed "Purchase completed: " JNull], Ok received).
Proof. vm_compute. reflexivity. Qed.

Example handle_unknown_type :
  handle_webhook demo_verifier
    (signed_request demo_verifier (json_text "{'type':'user.deleted'}")
       (Ok (JObj [(lit "type", JStr (lit "user.deleted"))])))
  = ([Printed "Unknown event type: " (JStr (lit "user.deleted"))], Ok received).
Proof. vm_compute. reflexivity. Qed.

(** * Further properties of the verifier *)

(** ** Secrets that sign alike *)

Lemma encode_utf8_app (a b : pystr) (x y : list byte) :
  encode_utf8 a = Ok x -> encode_utf8 b = Ok y ->
  encode_utf8 (a ++ b) = Ok (x ++ y).
Proof.
  revert x; induction a as [|c a IH]; intros x; cbn [app encode_utf8].
  - intros Hx Hy. apply (f_equal (fun r => match r with Ok l => l | Err _ => [] end)) in Hx.
    cbn in Hx. subst x. exact Hy.
  - destruct (encode_cp c) as [l|]; [| discriminate].
    destruct (encode_utf8 a) as [t|e]; [| discriminate].
    cbn [bind]. intros Hx Hy.
    assert (x = map byte_of_N l ++ t) as -> by congruence.
    rewrite (IH t eq_refl Hy). cbn [bind]. rewrite app_assoc. reflexivity.
Qed.

Lemma hmac_key_block_nul (k : list byte) :
  (List.length k < 64)%nat -> hmac_key_block (k ++ [x00]) = hmac_key_block k.
Proof.
  intros Hk. unfold hmac_key_block, SHA256.block_size.
  assert (Hl : List.length (k ++ [x00]) = S (List.length k))
    by (rewrite length_app; cbn; lia).
  rewrite Hl.
  destruct (Nat.ltb_spec 64 (S (List.length k))); [lia |].
  destruct (Nat.ltb_spec 64 (List.length k)); [lia |].
  cbv zeta. rewrite Hl, <- app_assoc. f_equal. cbn [app].
  replace (64 - List.length k)%nat with (S (64 - S (List.length k))) by lia.
  reflexivity.
Qed.

(** X1: a secret whose encoding is shorter than the 64-byte block and the
    same secret followed by a NUL character give two verifiers, holding
    different keys, that sign every payload alike and answer every
    verification alike. *)
Theorem nul_padded_secret_signs_alike (S P : pystr) (k : list byte) (C : pyval) :
  encode_utf8 S = Ok k ->
  (List.length k < 64)%nat ->
  __init__ (PyStr S) = Ok (mkVerifier k)
  /\ __init__ (PyStr (S ++ [0])) = Ok (mkVerifier (k ++ [x00]))
  /\ k ++ [x00] <> k
  /\ generate_signature (mkVerifier (k ++ [x00])) P
     = generate_signature (mkVerifier k) P
  /\ verify_signature (mkVerifier (k ++ [x00])) P C
     = verify_signature (mkVerifier k) P C.
Proof.
  intros HS Hk.
  assert (Hm : forall msg, hmac_sha256 (k ++ [x00]) msg = hmac_sha256 k msg).
  { intros msg. unfold hmac_sha256. rewrite (hmac_key_block_nul k Hk). reflexivity. }
  split; [| split; [| split; [| split]]].
  - cbn [__init__]. rewrite HS. reflexivity.
  - cbn [__init__]. rewrite (encode_utf8_app S [0] k [x00] HS eq_refl). reflexivity.
  - intros H. apply (f_equal (@List.length byte)) in H.
    rewrite length_app in H. cbn in H. lia.
  - unfold generate_signature. cbn [secret].
    destruct (encode_utf8 P); cbn [bind]; [rewrite Hm |]; reflexivity.
  - unfold verify_signature. cbn [secret].
    destruct (encode_utf8 P); cbn [bind]; [rewrite Hm |]; reflexivity.
Qed.

Lemma nul_padded_secret_signs_alike_witness :
  encode_utf8 (lit "whsec_test123") = Ok (secret demo_verifier)
  /\ (List.length (secret demo_verifier) < 64)%nat
  /\ __init__ (PyStr (lit "whsec_test123")) = Ok (mkVerifier (secret demo_verifier))
  /\ __init__ (PyStr (lit "whsec_test123" ++ [0]))
     = Ok (mkVerifier (secret demo_verifier ++ [x00]))
  /\ secret demo_verifier ++ [x00] <> secret demo_verifier
  /\ generate_signature (mkVerifier (secret demo_verifier ++ [x00])) demo_payload
     = generate_signature (mkVerifier (secret demo_verifier)) demo_payload
  /\ verify_signature (mkVerifier (secret demo_verifier ++ [x00])) demo_payload PyNone
     = verify_signature (mkVerifier (secret demo_verifier)) demo_payload PyNone.
Proof.
  assert (H1 : encode_utf8 (lit "whsec_test123") = Ok (secret demo_verifier))
    by reflexivity.
  assert (H2 : (List.length (secret demo_verifier) < 64)%nat)
    by (cbn; lia).
  split; [exact H1 |]. split; [exact H2 |].
  exact (nul_padded_secret_signs_alike (lit "whsec_test123") demo_payload
           (secret demo_verifier) PyNone H1 H2).
Defined.

(** X2: a secret longer than the 64-byte block signs and verifies exactly
    as its 32-byte SHA-256 digest used as the secret. *)
Theorem long_secret_equals_its_digest (k : list byte) (P : pystr) (C : pyval) :
  (64 < List.length k)%nat ->
  generate_signature (mkVerifier (SHA256.digest k)) P
  = generate_signature (mkVerifier k) P
  /\ verify_signature (mkVerifier (SHA256.digest k)) P C
     = verify_signature (mkVerifier k) P C
  /\ List.length (SHA256.digest k) = 32%nat.
Proof.
  intros Hk.
  assert (Hb : hmac_key_block (SHA256.digest k) = hmac_key_block k).
  { unfold hmac_key_block, SHA256.block_size.
    rewrite sha256_digest_length.
    destruct (Nat.ltb_spec 64 (List.length k)); [| lia].
    rewrite sha256_digest_length. reflexivity. }
  assert (Hm : forall msg, hmac_sha256 (SHA256.digest k) msg = hmac_sha256 k msg).
  { intros msg. unfold hmac_sha256. rewrite Hb. reflexivity. }
  split; [| split; [| apply sha256_digest_length]].
  - unfold generate_signature. cbn [secret].
    destruct (encode_utf8 P); cbn [bind]; [rewrite Hm |]; reflexivity.
  - unfold verify_signature. cbn [secret].
    destruct (encode_utf8 P); cbn [bind]; [rewrite Hm |]; reflexivity.
Qed.

Lemma long_secret_equals_its_digest_witness :
  (64 < List.length (repeat xaa 131))%nat
  /\ generate_signature (mkVerifier (SHA256.digest (repeat xaa 131))) demo_payload
     = generate_signature (mkVerifier (repeat xaa 131)) demo_payload
  /\ verify_signature (mkVerifier (SHA256.digest (repeat xaa 131))) demo_payload PyNone
     = verify_signature (mkVerifier (repeat xaa 131)) demo_payload PyNone
  /\ List.length (SHA256.digest (repeat xaa 131)) = 32%nat.
Proof.
  assert (H : (64 < List.length (repeat xaa 131))%nat)
    by (rewrite repeat_length; lia).
  split; [exact H |].
  exact (long_secret_equals_its_digest (repeat xaa 131) demo_payload PyNone H).
Defined.

(** ** Candidates that can never verify *)

(** X3: for an encodable payload, every ASCII candidate whose length is
    not 64 (a prefixed, truncated or padded signature, the empty string)
    is answered [False]. *)
Theorem wrong_length_candidate_rejected (self : WebhookVerifier) (P C : pystr) :
  utf8_encodable P = true ->
  is_ascii C = true ->
  List.length C <> 64%nat ->
  verify_signature self P (PyStr C) = Ok false.
Proof.
  intros HP HC Hlen.
  destruct (generate_signature_encodable self P HP) as (msg & Hm & _).
  rewrite (verify_signature_encodable self P msg _ Hm).
  rewrite compare_digest_ascii by (assumption || apply hexdigest_ascii).
  f_equal. apply tscmp_false_iff. intros ->. apply Hlen.
  rewrite hexdigest_length, hmac_sha256_length. reflexivity.
Qed.

Lemma wrong_length_candidate_rejected_witness :
  utf8_encodable demo_payload = true
  /\ is_ascii (lit "sha256=00") = true
  /\ List.length (lit "sha256=00") <> 64%nat
  /\ verify_signature demo_verifier demo_payload (PyStr (lit "sha256=00"))
     = Ok false.
Proof.
  assert (H : List.length (lit "sha256=00") <> 64%nat) by (cbn; lia).
  split; [reflexivity |]. split; [reflexivity |]. split; [exact H |].
  exact (wrong_length_candidate_rejected demo_verifier demo_payload
           (lit "sha256=00") eq_refl eq_refl H).
Defined.

Lemma ascii_upper_ascii (s : pystr) :
  is_ascii s = true -> is_ascii (ascii_upper s) = true.
Proof.
  unfold is_ascii, ascii_upper.
  induction s as [|c s IH]; cbn [forallb map]; [reflexivity |].
  intros H. apply andb_true_iff in H as [Hc Hs]. rewrite (IH Hs), andb_true_r.
  apply N.ltb_lt in Hc. apply N.ltb_lt.
  destruct (N.leb_spec 97 c); destruct (N.leb_spec c 122); cbn [andb]; lia.
Qed.

Lemma ascii_upper_changes (s : pystr) :
  existsb is_hex_letter s = true -> ascii_upper s <> s.
Proof.
  unfold ascii_upper, is_hex_letter.
  induction s as [|c s IH]; cbn [existsb map]; [discriminate |].
  intros H Heq. injection Heq as Hc Hs.
  apply orb_true_iff in H as [H | H]; [| exact (IH H Hs)].
  apply andb_true_iff in H as [H1 H2].
  apply N.leb_le in H1. apply N.leb_le in H2.
  destruct (N.leb_spec 97 c); [| lia].
  destruct (N.leb_spec c 122); cbn [andb] in Hc; lia.
Qed.

(** X4: the comparison is case-sensitive: when the signature of an
    encodable payload has a letter among its digits, its uppercase
    rendering is answered [False]. *)
Theorem uppercase_signature_rejected (self : WebhookVerifier) (P sig : pystr) :
  generate_signature self P = Ok sig ->
  existsb is_hex_letter sig = true ->
  verify_signature self P (PyStr (ascii_upper sig)) = Ok false.
Proof.
  intros Hg Hl.
  assert (HP : utf8_encodable P = true).
  { unfold generate_signature in Hg.
    destruct (encode_utf8 P) as [m|e] eqn:E; [| discriminate].
    exact (encode_utf8_ok_encodable P m E). }
  destruct (generate_signature_encodable self P HP) as (msg & Hm & Hg').
  assert (sig = hexdigest (hmac_sha256 (secret self) msg)) as Hsig by congruence.
  rewrite (verify_signature_encodable self P msg _ Hm). rewrite <- Hsig.
  rewrite compare_digest_ascii.
  - f_equal. apply tscmp_false_iff. apply ascii_upper_changes. exact Hl.
  - apply ascii_upper_ascii. rewrite Hsig. apply hexdigest_ascii.
  - rewrite Hsig. apply hexdigest_ascii.
Qed.

Lemma uppercase_signature_rejected_witness :
  generate_signature demo_verifier demo_payload
  = Ok (lit "94655f089ba1437dd98593cda5a8512762099bc52b01ec01b7679a3dfb5bef2d")
  /\ existsb is_hex_letter
       (lit "94655f089ba1437dd98593cda5a8512762099bc52b01ec01b7679a3dfb5bef2d")
     = true
  /\ verify_signature demo_verifier demo_payload
       (PyStr (ascii_upper
          (lit "94655f089ba1437dd98593cda5a8512762099bc52b01ec01b7679a3dfb5bef2d")))
     = Ok false.
Proof.
  assert (H : generate_signature demo_verifier demo_payload
              = Ok (lit "94655f089ba1437dd98593cda5a8512762099bc52b01ec01b7679a3dfb5bef2d"))
    by (vm_compute; reflexivity).
  split; [exact H |]. split; [reflexivity |].
  exact (uppercase_signature_rejected demo_verifier demo_payload _ H eq_refl).
Defined.

(** ** Which exception comes first *)

(** X5: [verify_signature] raises [UnicodeEncodeError] exactly when the
    payload holds a code point that UTF-8 cannot encode, whatever the
    candidate is (a string, ASCII or not, or [None]): the payload is
    encoded before the candidate is looked at. *)
Theorem verify_unicode_error_iff (self : WebhookVerifier) (P : pystr) (C : pyval) :
  verify_signature self P C = Err UnicodeEncodeError
  <-> utf8_encodable P = false.
Proof.
  split.
  - intros H. destruct (utf8_encodable P) eqn:HP; [| reflexivity].
    destruct (generate_signature_encodable self P HP) as (msg & Hm & _).
    rewrite (verify_signature_encodable self P msg _ Hm) in H.
    unfold compare_digest in H. destruct C as [|s]; [discriminate |].
    destruct (is_ascii s && is_ascii _); discriminate.
  - intros HP. unfold verify_signature.
    rewrite (encode_utf8_not_encodable P HP). reflexivity.
Qed.

(** * Further properties of the handler *)

(** X6: the handler prints an event only for a request whose signature
    header is exactly the 64-digit lowercase hexadecimal HMAC-SHA-256,
    under the verifier's secret, of the re-encoded body text; it then
    answers with the acknowledgement, and it has called [print] exactly
    once. *)
Theorem output_only_for_expected_signature (self : WebhookVerifier) (r : request) :
  fst (handle_webhook self r) <> [] ->
  exists m s,
    mac_input r = Ok m
    /\ header_signature r = Some s
    /\ s = hexdigest (hmac_sha256 (secret self) m)
    /\ List.length s = 64%nat
    /\ snd (handle_webhook self r) = Ok received
    /\ List.length (fst (handle_webhook self r)) = 1%nat.
Proof.
  intros Hout. destruct (handle_webhook_compare self r) as (m & Hm & Hv).
  unfold handle_webhook in *. rewrite Hv in *.
  unfold headers_get_signature in *.
  destruct (header_signature r) as [s|]; [| exfalso; apply Hout; reflexivity].
  unfold compare_digest in *.
  destruct (is_ascii s && is_ascii _); [| exfalso; apply Hout; reflexivity].
  destruct (tscmp s _) eqn:Hc; [| exfalso; apply Hout; reflexivity].
  apply tscmp_true_iff in Hc.
  exists m, s. split; [exact Hm |]. split; [reflexivity |]. split; [exact Hc |].
  split; [rewrite Hc, hexdigest_length, hmac_sha256_length; reflexivity |].
  unfold process in *.
  destruct (get_json r) as [data|e]; [| exfalso; apply Hout; reflexivity].
  destruct (dict_get data (lit "type")) as [ty|]; [| exfalso; apply Hout; reflexivity].
  destruct (dict_get data (lit "data")) as [da|]; [| exfalso; apply Hout; reflexivity].
  destruct (dispatch ty da); [| exfalso; apply Hout; reflexivity].
  split; reflexivity.
Qed.

Lemma output_only_for_expected_signature_witness :
  fst (handle_webhook demo_verifier untyped_request) <> []
  /\ exists m s,
       mac_input untyped_request = Ok m
       /\ header_signature untyped_request = Some s
       /\ s = hexdigest (hmac_sha256 (secret demo_verifier) m)
       /\ List.length s = 64%nat
       /\ snd (handle_webhook demo_verifier untyped_request) = Ok received
       /\ List.length (fst (handle_webhook demo_verifier untyped_request)) = 1%nat.
Proof.
  assert (H : fst (handle_webhook demo_verifier untyped_request) <> [])
    by (vm_compute; discriminate).
  split; [exact H |].
  exact (output_only_for_expected_signature demo_verifier untyped_request H).
Defined.

(** X7: a signature header holding a non-ASCII character makes the
    handler raise [TypeError]: nothing is printed and no 401 is returned,
    whatever the body is. *)
Theorem non_ascii_header_raises (self : WebhookVerifier) (r : request) (s : pystr) :
  header_signature r = Some s ->
  is_ascii s = false ->
  handle_webhook self r = ([], Err TypeError).
Proof.
  intros Hh Hs. destruct (handle_webhook_compare self r) as (m & _ & Hv).
  unfold handle_webhook. rewrite Hv. unfold headers_get_signature. rewrite Hh.
  rewrite (compare_digest_non_ascii s _ Hs). reflexivity.
Qed.

Lemma non_ascii_header_raises_witness :
  header_signature (invalid_utf8_request (Some [0xE9])) = Some [0xE9]
  /\ is_ascii [0xE9] = false
  /\ handle_webhook demo_verifier (invalid_utf8_request (Some [0xE9]))
     = ([], Err TypeError).
Proof.
  split; [reflexivity |]. split; [reflexivity |].
  exact (non_ascii_header_raises demo_verifier
           (invalid_utf8_request (Some [0xE9])) [0xE9] eq_refl eq_refl).
Defined.

(** X8: once the signature has verified, the acknowledgement is returned
    only if [get_json] returned a JSON object: when [get_json] raises, the
    handler raises the same exception, and when it returns any other JSON
    value ([null], an array, a string, a number) the handler raises
    [AttributeError]; in both cases no [print] is made. *)
Theorem verified_request_needs_object (self : WebhookVerifier) (r : request) :
  verify_signature self (get_data_as_text r) (headers_get_signature r)
  = Ok true ->
  (snd (handle_webhook self r) = Ok received ->
   exists fields, get_json r = Ok (JObj fields))
  /\ (forall e, get_json r = Err e -> handle_webhook self r = ([], Err e))
  /\ (forall data,
        get_json r = Ok data -> is_object data = false ->
        handle_webhook self r = ([], Err AttributeError)).
Proof.
  intros Hv. unfold handle_webhook. rewrite Hv. unfold process.
  split; [| split].
  - destruct (get_json r) as [data|e]; [| discriminate].
    destruct data; try discriminate. eauto.
  - intros e ->. reflexivity.
  - intros data -> Hd. destruct data; try reflexivity. discriminate.
Qed.

Lemma verified_request_needs_object_witness :
  verify_signature demo_verifier (get_data_as_text array_request)
    (headers_get_signature array_request) = Ok true
  /\ (snd (handle_webhook demo_verifier array_request) = Ok received ->
      exists fields, get_json array_request = Ok (JObj fields))
  /\ (forall e, get_json array_request = Err e ->
        handle_webhook demo_verifier array_request = ([], Err e))
  /\ (forall data,
        get_json array_request = Ok data -> is_object data = false ->
        handle_webhook demo_verifier array_request = ([], Err AttributeError)).
Proof.
  assert (H : verify_signature demo_verifier (get_data_as_text array_request)
                (headers_get_signature array_request) = Ok true)
    by (vm_compute; reflexivity).
  split; [exact H |].
  exact (verified_request_needs_object demo_verifier array_request H).
Defined.

(** ** From the sender to the handler *)



(** ** Bytes the signature does not tell apart *)

Lemma decode_replace_step (b0 : N) (r0 : list N) :
  decode_replace (b0 :: r0)
  = if b0 <? 0x80 then b0 :: decode_replace r0
    else if (b0 <? 0xC2) || (0xF5 <=? b0) then REPLACEMENT :: decode_replace r0
    else if b0 <? 0xE0 then
      match r0 with
      | [] => [REPLACEMENT]
      | b1 :: r1 =>
          if is_cont b1
          then (b0 mod 32 * 64 + b1 mod 64) :: decode_replace r1
          else REPLACEMENT :: decode_replace r0
      end
    else if b0 <? 0xF0 then
      match r0 with
      | [] => [REPLACEMENT]
      | b1 :: r1 =>
          if second_ok3 b0 b1 then
            match r1 with
            | [] => [REPLACEMENT]
            | b2 :: r2 =>
                if is_cont b2
                then (b0 mod 16 * 4096 + b1 mod 64 * 64 + b2 mod 64)
                       :: decode_replace r2
                else REPLACEMENT :: decode_replace r1
            end
          else REPLACEMENT :: decode_replace r0
      end
    else
      match r0 with
      | [] => [REPLACEMENT]
      | b1 :: r1 =>
          if second_ok4 b0 b1 then
            match r1 with
            | [] => [REPLACEMENT]
            | b2 :: r2 =>
                if is_cont b2 then
                  match r2 with
                  | [] => [REPLACEMENT]
                  | b3 :: r3 =>
                      if is_cont b3
                      then (b0 mod 8 * 262144 + b1 mod 64 * 4096
                            + b2 mod 64 * 64 + b3 mod 64)
                             :: decode_replace r3
                      else REPLACEMENT :: decode_replace r2
                  end
                else REPLACEMENT :: decode_replace r1
            end
          else REPLACEMENT :: decode_replace r0
      end.
Proof. reflexivity. Qed.

Lemma never_valid_tests (x : N) :
  never_valid x = true ->
  (x <? 0x80) = false
  /\ ((x <? 0xC2) || (0xF5 <=? x)) = true
  /\ is_cont x = false
  /\ (forall b0, second_ok3 b0 x = false)
  /\ (forall b0, second_ok4 b0 x = false).
Proof.
  unfold never_valid, second_ok3, second_ok4, is_cont. intros H.
  assert (Hx : x = 0xC0 \/ x = 0xC1 \/ 0xF5 <= x).
  { apply orb_true_iff in H as [H | H]; [apply orb_true_iff in H as [H | H] |].
    - apply N.eqb_eq in H; auto.
    - apply N.eqb_eq in H; auto.
    - apply andb_true_iff in H as [H _]. apply N.leb_le in H; auto. }
  assert (H1 : (x <? 0x80) = false) by (apply N.ltb_ge; lia).
  assert (H2 : (x <? 0xC0) = false) by (apply N.ltb_ge; lia).
  assert (H3 : ((x <? 0xC2) || (0xF5 <=? x)) = true).
  { destruct (N.ltb_spec x 0xC2); [reflexivity |].
    apply N.leb_le. lia. }
  rewrite H2, andb_false_r. repeat split; auto.
Qed.

Lemma decode_replace_never_valid (x x' : N) (post : list N) :
  never_valid x = true -> never_valid x' = true ->
  forall (n : nat) (pre : list N),
    (List.length pre <= n)%nat ->
    decode_replace (pre ++ x :: post) = decode_replace (pre ++ x' :: post).
Proof.
  intros Hx Hx'.
  destruct (never_valid_tests x Hx) as (X1 & X2 & X3 & X4 & X5).
  destruct (never_valid_tests x' Hx') as (Y1 & Y2 & Y3 & Y4 & Y5).
  assert (Hbase : decode_replace (x :: post) = decode_replace (x' :: post)).
  { rewrite !decode_replace_step, X1, X2, Y1, Y2. reflexivity. }
  induction n as [|n IH]; intros [|p0 r0] Hlen; cbn [app];
    try exact Hbase; [cbn in Hlen; lia |].
  cbn [List.length] in Hlen.
  rewrite !(decode_replace_step p0).
  repeat (cbn [app];
          rewrite ?X3, ?X4, ?X5, ?Y3, ?Y4, ?Y5;
          match goal with
          | |- (if ?t then _ else _) = _ => destruct t eqn:?
          | |- match ?l ++ _ with [] => _ | _ :: _ => _ end = _ =>
              destruct l as [|? ?]
          end);
    cbn [app]; rewrite ?X3, ?X4, ?X5, ?Y3, ?Y4, ?Y5;
    cbn [List.length] in Hlen;
    try reflexivity; f_equal;
    first [ exact Hbase
          | match goal with
            | |- decode_replace (?a :: ?b :: ?l ++ _) = _ =>
                apply (IH (a :: b :: l)); cbn [List.length]; lia
            | |- decode_replace (?a :: ?l ++ _) = _ =>
                apply (IH (a :: l)); cbn [List.length]; lia
            | |- decode_replace (?l ++ _) = _ => apply (IH l); lia
            | |- decode_replace [?a; _] = _ =>
                apply (IH [a]); cbn [List.length]; lia
            | |- decode_replace (?a :: ?b :: _) = _ =>
                apply (IH [a; b]); cbn [List.length]; lia
            | |- decode_replace (?a :: _) = _ =>
                apply (IH [a]); cbn [List.length]; lia
            end ].
Qed.

(** X10: the signature does not cover the raw bytes: replacing, anywhere
    in a body, one byte that no UTF-8 sequence contains (0xC0, 0xC1,
    0xF5..0xFF) by another such byte leaves unchanged the text that is
    authenticated, the bytes the HMAC is computed over and the result of
    [verify_signature] in the handler: a signature header accepted with
    one body is accepted with the other. *)
Theorem never_valid_bytes_interchangeable (self : WebhookVerifier)
    (h : option pystr) (parsed parsed' : result json)
    (pre post : list byte) (x x' : byte) :
  never_valid (Byte.to_N x) = true ->
  never_valid (Byte.to_N x') = true ->
  let r := mkRequest h (pre ++ x :: post) parsed in
  let r' := mkRequest h (pre ++ x' :: post) parsed' in
  get_data_as_text r = get_data_as_text r'
  /\ mac_input r = mac_input r'
  /\ verify_signature self (get_data_as_text r) (headers_get_signature r)
     = verify_signature self (get_data_as_text r') (headers_get_signature r').
Proof.
  intros Hx Hx' r r'.
  assert (Ht : get_data_as_text r = get_data_as_text r').
  { unfold r, r', get_data_as_text, decode_utf8_replace, bytes_to_N.
    cbn [body]. rewrite !map_app. cbn [map].
    apply (decode_replace_never_valid _ _ _ Hx Hx' (List.length (map Byte.to_N pre))).
    reflexivity. }
  split; [exact Ht |]. unfold mac_input. rewrite Ht. split; reflexivity.
Qed.

Lemma never_valid_bytes_interchangeable_witness :
  never_valid (Byte.to_N xff) = true
  /\ never_valid (Byte.to_N xc0) = true
  /\ get_data_as_text (mkRequest None ([x7b] ++ xff :: [x7d]) (Err (HTTPException 400)))
     = get_data_as_text (mkRequest None ([x7b] ++ xc0 :: [x7d]) (Err (HTTPException 400)))
  /\ mac_input (mkRequest None ([x7b] ++ xff :: [x7d]) (Err (HTTPException 400)))
     = mac_input (mkRequest None ([x7b] ++ xc0 :: [x7d]) (Err (HTTPException 400)))
  /\ verify_signature demo_verifier
       (get_data_as_text (mkRequest None ([x7b] ++ xff :: [x7d]) (Err (HTTPException 400))))
       (headers_get_signature (mkRequest None ([x7b] ++ xff :: [x7d]) (Err (HTTPException 400))))
     = verify_signature demo_verifier
         (get_data_as_text (mkRequest None ([x7b] ++ xc0 :: [x7d]) (Err (HTTPException 400))))
         (headers_get_signature (mkRequest None ([x7b] ++ xc0 :: [x7d]) (Err (HTTPException 400)))).
Proof.
  split; [reflexivity |]. split; [reflexivity |].
  exact (never_valid_bytes_interchangeable demo_verifier None
           (Err (HTTPException 400)) (Err (HTTPException 400))
           [x7b] [x7d] xff xc0 eq_refl eq_refl).
Defined.

(** * Properties of the API client *)

(** ** Correlation ids and request headers *)

Lemma pystr_eqb_eq (a b : pystr) : pystr_eqb a b = true <-> a = b.
Proof.
  revert b; induction a as [|x a IH]; intros [|y b]; cbn [pystr_eqb];
    try (split; [discriminate | discriminate]); [tauto |].
  rewrite andb_true_iff, N.eqb_eq, IH. split.
  - intros [-> ->]; reflexivity.
  - intros [= -> ->]; auto.
Qed.

Lemma pystr_eqb_neq (a b : pystr) : pystr_eqb a b = false <-> a <> b.
Proof.
  rewrite <- pystr_eqb_eq. destruct (pystr_eqb a b); split; congruence.
Qed.

Lemma dict_lookup_set_same {V : Type} (k : pystr) (v : V) (d : dict V) :
  dict_lookup k (dict_set k v d) = Some v.
Proof.
  induction d as [|[k' v'] d IH]; cbn [dict_set dict_lookup].
  - rewrite (proj2 (pystr_eqb_eq k k) eq_refl). reflexivity.
  - destruct (pystr_eqb k k') eqn:E; cbn [dict_lookup]; rewrite E; auto.
Qed.

Lemma dict_lookup_set_other {V : Type} (k k0 : pystr) (v : V) (d : dict V) :
  k0 <> k -> dict_lookup k0 (dict_set k v d) = dict_lookup k0 d.
Proof.
  intros Hk. induction d as [|[k' v'] d IH]; cbn [dict_set dict_lookup].
  - rewrite (proj2 (pystr_eqb_neq k0 k) Hk). reflexivity.
  - destruct (pystr_eqb k k') eqn:E; cbn [dict_lookup].
    + apply pystr_eqb_eq in E. subst k'.
      rewrite (proj2 (pystr_eqb_neq k0 k) Hk). reflexivity.
    + rewrite IH. reflexivity.
Qed.

Lemma dict_set_length {V : Type} (k : pystr) (v : V) (d : dict V) :
  List.length (dict_set k v d)
  = match dict_lookup k d with
    | Some _ => List.length d
    | None => S (List.length d)
    end.
Proof.
  induction d as [|[k' v'] d IH]; cbn [dict_set dict_lookup]; [reflexivity |].
  destruct (pystr_eqb k k'); cbn [List.length]; [reflexivity |].
  rewrite IH. destruct (dict_lookup k d); reflexivity.
Qed.

(** X11: for a UUID of 16 bytes the correlation id is ["python-"]
    followed by the eight lowercase hexadecimal digits of the UUID's first
    four bytes: 15 characters, and nothing of the other twelve bytes. *)
Theorem correlation_id_shape (u : list byte) :
  List.length u = 16%nat ->
  PlatformAPIClient._generate_correlation_id u
  = lit "python-" ++ hexdigest (firstn 4 u)
  /\ List.length (PlatformAPIClient._generate_correlation_id u) = 15%nat
  /\ forallb is_lower_hex (hexdigest (firstn 4 u)) = true.
Proof.
  intros Hu.
  do 16 (destruct u as [|? u]; [discriminate Hu |]).
  destruct u; [| discriminate Hu].
  split; [reflexivity |]. split; [reflexivity | apply hexdigest_lower].
Qed.

Lemma correlation_id_shape_witness :
  List.length demo_uuid = 16%nat
  /\ PlatformAPIClient._generate_correlation_id demo_uuid
     = lit "python-" ++ hexdigest (firstn 4 demo_uuid)
  /\ List.length (PlatformAPIClient._generate_correlation_id demo_uuid) = 15%nat
  /\ forallb is_lower_hex (hexdigest (firstn 4 demo_uuid)) = true.
Proof.
  split; [reflexivity |].
  exact (correlation_id_shape demo_uuid eq_refl).
Defined.

Example demo_correlation_id :
  PlatformAPIClient._generate_correlation_id demo_uuid = lit "python-00010203"
  /\ PlatformAPIClient.uuid_str demo_uuid
     = lit "00010203-0405-4607-8809-0a0b0c0d0e0f".
Proof. split; reflexivity. Qed.

(** X12: whatever headers the caller passes, the request that [_request]
    builds carries the fresh correlation id under [X-Correlation-ID] (a
    value supplied by the caller is overwritten), every other header is
    passed on unchanged, and no header is dropped or duplicated. *)
Theorem correlation_header_set (self : PlatformAPIClient.t) (u : list byte)
    (endpoint method : pystr) (headers : option (dict pystr))
    (json_arg : option json) :
  let given := match headers with Some h => h | None => [] end in
  let sent := PlatformAPIClient.build_request self u endpoint method headers json_arg in
  dict_lookup (lit "X-Correlation-ID") (PlatformAPIClient.req_headers sent)
  = Some (PlatformAPIClient._generate_correlation_id u)
  /\ (forall k, k <> lit "X-Correlation-ID" ->
        dict_lookup k (PlatformAPIClient.req_headers sent) = dict_lookup k given)
  /\ List.length (PlatformAPIClient.req_headers sent)
     = match dict_lookup (lit "X-Correlation-ID") given with
       | Some _ => List.length given
       | None => S (List.length given)
       end.
Proof.
  intros given sent. unfold sent, PlatformAPIClient.build_request.
  cbn [PlatformAPIClient.req_headers]. fold given.
  split; [apply dict_lookup_set_same |].
  split; [intros k Hk; apply dict_lookup_set_other; exact Hk |].
  apply dict_set_length.
Qed.

(** ** What [_request] returns and raises *)

Lemma ok_status (r : PlatformAPIClient.http_response) :
  PlatformAPIClient.ok r = true
  <-> PlatformAPIClient.status_code r < 400
      \/ 600 <= PlatformAPIClient.status_code r.
Proof.
  unfold PlatformAPIClient.ok.
  destruct (N.leb_spec 400 (PlatformAPIClient.status_code r));
    destruct (N.ltb_spec (PlatformAPIClient.status_code r) 600);
    cbn; split; intros; try discriminate; try reflexivity; lia.
Qed.

Lemma error_of_cases (r : PlatformAPIClient.http_response) (data : json) :
  (exists m, PlatformAPIClient.error_of r data
             = PlatformAPIClient.APIError (PlatformAPIClient.status_code r) m)
  \/ PlatformAPIClient.error_of r data
     = PlatformAPIClient.Builtin AttributeError.
Proof.
  unfold PlatformAPIClient.error_of, dict_get_default.
  destruct data; auto.
  destruct (lookup (lit "error") fields) as [v|].
  - destruct v; auto. destruct (lookup (lit "message") fields0); eauto.
  - cbn. eauto.
Qed.

Lemma request_sent (self : PlatformAPIClient.t)
    (session_request : PlatformAPIClient.http_request -> PlatformAPIClient.http_response)
    (u : list byte) (endpoint method : pystr) (headers : option (dict pystr))
    (json_arg : option json) :
  fst (PlatformAPIClient._request self session_request u endpoint method
         headers json_arg)
  = [PlatformAPIClient.build_request self u endpoint method headers json_arg].
Proof.
  unfold PlatformAPIClient._request.
  destruct (PlatformAPIClient.json_value _); [| reflexivity].
  destruct (negb _); reflexivity.
Qed.

(** X13: [_request] sends exactly one request, to [base_url + endpoint],
    whatever the outcome. It returns the decoded body exactly when the
    body is JSON and the status is outside 400..599 (so a status of 600 or
    more counts as success); it raises the invalid-JSON exception exactly
    when the body is not JSON, and then also for an error status. *)
Theorem request_outcome (self : PlatformAPIClient.t)
    (session_request : PlatformAPIClient.http_request -> PlatformAPIClient.http_response)
    (u : list byte) (endpoint method : pystr) (headers : option (dict pystr))
    (json_arg : option json) :
  let sent := PlatformAPIClient.build_request self u endpoint method headers json_arg in
  let response := session_request sent in
  let result :=
    PlatformAPIClient._request self session_request u endpoint method headers json_arg in
  fst result = [sent]
  /\ PlatformAPIClient.req_url sent = PlatformAPIClient.base_url self ++ endpoint
  /\ (forall data,
        snd result = PlatformAPIClient.Returned data
        <-> PlatformAPIClient.json_value response = Some data
            /\ (PlatformAPIClient.status_code response < 400
                \/ 600 <= PlatformAPIClient.status_code response))
  /\ (forall t,
        snd result = PlatformAPIClient.Raised (PlatformAPIClient.InvalidJSONResponse t)
        <-> PlatformAPIClient.json_value response = None
            /\ t = PlatformAPIClient.text response).
Proof.
  intros sent response result.
  unfold result, PlatformAPIClient._request. fold sent. fold response.
  destruct (PlatformAPIClient.json_value response) as [data|] eqn:Hj.
  - destruct (PlatformAPIClient.ok response) eqn:Hok; cbn [negb fst snd].
    + split; [reflexivity |]. split; [reflexivity |]. split.
      * intros d. rewrite <- ok_status, Hok. split.
        -- intros [= ->]. auto.
        -- intros [[= ->] _]. reflexivity.
      * intros t. split; [discriminate | intros [H _]; discriminate].
    + split; [reflexivity |]. split; [reflexivity |]. split.
      * intros d. rewrite <- ok_status, Hok. split.
        -- discriminate.
        -- intros [_ H]; discriminate.
      * intros t. split; [| intros [H _]; discriminate].
        destruct (error_of_cases response data) as [[m ->] | ->]; discriminate.
  - cbn [fst snd]. split; [reflexivity |]. split; [reflexivity |]. split.
    + intros d. split; [discriminate | intros [H _]; discriminate].
    + intros t. split.
      * intros [= <-]. auto.
      * intros [_ ->]. reflexivity.
Qed.

(** X14: on an error status (400..599) with a JSON object as body,
    [_request] raises the API error carrying the status and the message
    found under [error.message]; when the object has no ['error'] key, or
    its error object has no ['message'] key, the message is
    ['Unknown error']. *)
Theorem request_error_message (self : PlatformAPIClient.t)
    (session_request : PlatformAPIClient.http_request -> PlatformAPIClient.http_response)
    (u : list byte) (endpoint method : pystr) (headers : option (dict pystr))
    (json_arg : option json) (fields : list (pystr * json)) :
  let sent := PlatformAPIClient.build_request self u endpoint method headers json_arg in
  let response := session_request sent in
  let result :=
    PlatformAPIClient._request self session_request u endpoint method headers json_arg in
  PlatformAPIClient.json_value response = Some (JObj fields) ->
  400 <= PlatformAPIClient.status_code response < 600 ->
  (lookup (lit "error") fields = None ->
   snd result = PlatformAPIClient.Raised
                  (PlatformAPIClient.APIError (PlatformAPIClient.status_code response)
                     (JStr (lit "Unknown error"))))
  /\ (forall err,
        lookup (lit "error") fields = Some (JObj err) ->
        lookup (lit "message") err = None ->
        snd result = PlatformAPIClient.Raised
                       (PlatformAPIClient.APIError (PlatformAPIClient.status_code response)
                          (JStr (lit "Unknown error"))))
  /\ (forall err m,
        lookup (lit "error") fields = Some (JObj err) ->
        lookup (lit "message") err = Some m ->
        snd result = PlatformAPIClient.Raised
                       (PlatformAPIClient.APIError (PlatformAPIClient.status_code response) m)).
Proof.
  intros sent response result Hj Hs.
  assert (Hok : PlatformAPIClient.ok response = false).
  { destruct (PlatformAPIClient.ok response) eqn:E; [| reflexivity].
    apply ok_status in E. lia. }
  unfold result, PlatformAPIClient._request. fold sent. fold response.
  rewrite Hj, Hok. cbn [negb snd].
  unfold PlatformAPIClient.error_of, dict_get_default.
  split; [| split].
  - intros ->. reflexivity.
  - intros err -> ->. reflexivity.
  - intros err m -> ->. reflexivity.
Qed.

(** An error response: status 404, body [{"error": {"message": "gone"}}]. *)
Example request_error_message_demo :
  snd (PlatformAPIClient._request demo_client
         (always (PlatformAPIClient.mkHttpResponse 404 []
                    (Some (JObj [(lit "error",
                                  JObj [(lit "message", JStr (lit "gone"))])]))))
         demo_uuid (lit "/webhooks/events") (lit "GET") None None)
  = PlatformAPIClient.Raised (PlatformAPIClient.APIError 404 (JStr (lit "gone"))).
Proof. reflexivity. Qed.

Lemma request_error_message_witness :
  let response :=
    PlatformAPIClient.mkHttpResponse 404 [] (Some (JObj [])) in
  let result :=
    PlatformAPIClient._request demo_client (always response) demo_uuid
      (lit "/webhooks/events") (lit "GET") None None in
  PlatformAPIClient.json_value response = Some (JObj [])
  /\ 400 <= PlatformAPIClient.status_code response < 600
  /\ (lookup (lit "error") [] = None ->
      snd result = PlatformAPIClient.Raised
                     (PlatformAPIClient.APIError (PlatformAPIClient.status_code response)
                        (JStr (lit "Unknown error"))))
  /\ (forall err,
        lookup (lit "error") [] = Some (JObj err) ->
        lookup (lit "message") err = None ->
        snd result = PlatformAPIClient.Raised
                       (PlatformAPIClient.APIError (PlatformAPIClient.status_code response)
                          (JStr (lit "Unknown error"))))
  /\ (forall err m,
        lookup (lit "error") [] = Some (JObj err) ->
        lookup (lit "message") err = Some m ->
        snd result = PlatformAPIClient.Raised
                       (PlatformAPIClient.APIError (PlatformAPIClient.status_code response) m)).
Proof.
  intros response result.
  assert (H1 : PlatformAPIClient.json_value response = Some (JObj [])) by reflexivity.
  assert (H2 : 400 <= PlatformAPIClient.status_code response < 600)
    by (cbn; lia).
  split; [exact H1 |]. split; [exact H2 |].
  exact (request_error_message demo_client (always response) demo_uuid
           (lit "/webhooks/events") (lit "GET") None None [] H1 H2).
Defined.

(** X15: on an error status with a JSON body that is not an object, or
    whose ['error'] value is not an object (a string, [null], a list, a
    number), [_request] raises [AttributeError] and not its API error. *)
Theorem request_error_malformed (self : PlatformAPIClient.t)
    (session_request : PlatformAPIClient.http_request -> PlatformAPIClient.http_response)
    (u : list byte) (endpoint method : pystr) (headers : option (dict pystr))
    (json_arg : option json) (data : json) :
  let sent := PlatformAPIClient.build_request self u endpoint method headers json_arg in
  let response := session_request sent in
  let result :=
    PlatformAPIClient._request self session_request u endpoint method headers json_arg in
  PlatformAPIClient.json_value response = Some data ->
  400 <= PlatformAPIClient.status_code response < 600 ->
  (is_object data = false
   \/ exists fields v, data = JObj fields
                       /\ lookup (lit "error") fields = Some v
                       /\ is_object v = false) ->
  snd result = PlatformAPIClient.Raised (PlatformAPIClient.Builtin AttributeError).
Proof.
  intros sent response result Hj Hs Hbad.
  assert (Hok : PlatformAPIClient.ok response = false).
  { destruct (PlatformAPIClient.ok response) eqn:E; [| reflexivity].
    apply ok_status in E. lia. }
  unfold result, PlatformAPIClient._request. fold sent. fold response.
  rewrite Hj, Hok. cbn [negb snd].
  unfold PlatformAPIClient.error_of, dict_get_default.
  destruct Hbad as [Hd | (fields & v & -> & -> & Hv)].
  - destruct data; try reflexivity. discriminate.
  - destruct v; try reflexivity. discriminate.
Qed.

Lemma request_error_malformed_witness :
  let data := JObj [(lit "error", JStr (lit "Bad request"))] in
  let response := PlatformAPIClient.mkHttpResponse 400 [] (Some data) in
  let result :=
    PlatformAPIClient._request demo_client (always response) demo_uuid
      (lit "/webhooks/events") (lit "GET") None None in
  PlatformAPIClient.json_value response = Some data
  /\ 400 <= PlatformAPIClient.status_code response < 600
  /\ (is_object data = false
      \/ exists fields v, data = JObj fields
                          /\ lookup (lit "error") fields = Some v
                          /\ is_object v = false)
  /\ snd result = PlatformAPIClient.Raised (PlatformAPIClient.Builtin AttributeError).
Proof.
  intros data response result.
  assert (H1 : PlatformAPIClient.json_value response = Some data) by reflexivity.
  assert (H2 : 400 <= PlatformAPIClient.status_code response < 600)
    by (cbn; lia).
  assert (H3 : is_object data = false
               \/ exists fields v, data = JObj fields
                                   /\ lookup (lit "error") fields = Some v
                                   /\ is_object v = false).
  { right. exists [(lit "error", JStr (lit "Bad request"))], (JStr (lit "Bad request")).
    split; [reflexivity |]. split; reflexivity. }
  split; [exact H1 |]. split; [exact H2 |]. split; [exact H3 |].
  exact (request_error_malformed demo_client (always response) demo_uuid
           (lit "/webhooks/events") (lit "GET") None None data H1 H2 H3).
Defined.

(** ** Quoting of the search query *)

Lemma hex_digit_upper_safe (d : N) :
  d < 16 -> quote_safe (hex_digit_upper d) = true.
Proof.
  intros Hd. unfold hex_digit_upper, quote_safe.
  destruct (N.ltb_spec d 10).
  - replace ((48 <=? 48 + d) && (48 + d <=? 57)) with true.
    + rewrite !orb_true_r. reflexivity.
    + symmetry. apply andb_true_iff. split; apply N.leb_le; lia.
  - replace ((65 <=? 55 + d) && (55 + d <=? 90)) with true.
    + reflexivity.
    + symmetry. apply andb_true_iff. split; apply N.leb_le; lia.
Qed.

Lemma quote_byte_inert (b : byte) : forallb quote_inert (quote_byte b) = true.
Proof.
  pose proof (Byte.to_N_bounded b) as Hb.
  unfold quote_byte, quote_inert.
  destruct (quote_safe (Byte.to_N b)) eqn:E; cbn [forallb].
  - rewrite E. reflexivity.
  - rewrite !hex_digit_upper_safe.
    + rewrite orb_true_r. reflexivity.
    + apply N.mod_lt; discriminate.
    + apply N.Div0.div_lt_upper_bound; lia.
Qed.

Lemma quote_from_bytes_inert (bs : list byte) :
  forallb quote_inert (quote_from_bytes bs) = true.
Proof.
  induction bs as [|b bs IH]; [reflexivity |].
  change (quote_from_bytes (b :: bs)) with (quote_byte b ++ quote_from_bytes bs).
  rewrite forallb_app, quote_byte_inert, IH. reflexivity.
Qed.

Lemma quote_inert_not_reserved (c : N) :
  quote_inert c = true ->
  c <> 38 /\ c <> 61 /\ c <> 63 /\ c <> 35 /\ c <> 32 /\ c <> 43 /\ c < 128.
Proof.
  unfold quote_inert, quote_safe. intros H.
  rewrite !orb_true_iff, !andb_true_iff, !N.leb_le, !N.eqb_eq in H. lia.
Qed.

(** X16: [get_search_suggestions] sends one GET request whose URL is the
    base URL, ["/search/suggestions?q="] and the quoted query, and the
    quoted query holds only letters, digits, [_.-~/] and [%]: whatever
    the query, no [&], [=], [?], [#], [+], space or non-ASCII character
    reaches the URL through it. *)
Theorem search_suggestions_query_quoted (self : PlatformAPIClient.t)
    (session_request : PlatformAPIClient.http_request -> PlatformAPIClient.http_response)
    (u : list byte) (query : pystr) :
  utf8_encodable query = true ->
  exists q,
    quote query = Ok q
    /\ fst (PlatformAPIClient.get_search_suggestions self session_request u query)
       = [PlatformAPIClient.build_request self u
            (lit "/search/suggestions?q=" ++ q) (lit "GET") None None]
    /\ forallb quote_inert q = true
    /\ (forall c, In c q ->
          c <> 38 /\ c <> 61 /\ c <> 63 /\ c <> 35 /\ c <> 32 /\ c <> 43 /\ c < 128).
Proof.
  intros Hq. destruct (encode_utf8_encodable query Hq) as [bs Hbs].
  exists (quote_from_bytes bs).
  assert (Hquote : quote query = Ok (quote_from_bytes bs))
    by (unfold quote; rewrite Hbs; reflexivity).
  split; [exact Hquote |]. split; [| split].
  - unfold PlatformAPIClient.get_search_suggestions. rewrite Hquote.
    apply request_sent.
  - apply quote_from_bytes_inert.
  - intros c Hc. apply quote_inert_not_reserved.
    pose proof (quote_from_bytes_inert bs) as H.
    rewrite forallb_forall in H. exact (H c Hc).
Qed.

Lemma search_suggestions_query_quoted_witness :
  utf8_encodable (lit "a b&c=d") = true
  /\ exists q,
       quote (lit "a b&c=d") = Ok q
       /\ fst (PlatformAPIClient.get_search_suggestions demo_client
                 (always (PlatformAPIClient.mkHttpResponse 200 [] (Some JNull)))
                 demo_uuid (lit "a b&c=d"))
          = [PlatformAPIClient.build_request demo_client demo_uuid
               (lit "/search/suggestions?q=" ++ q) (lit "GET") None None]
       /\ forallb quote_inert q = true
       /\ (forall c, In c q ->
             c <> 38 /\ c <> 61 /\ c <> 63 /\ c <> 35 /\ c <> 32 /\ c <> 43 /\ c < 128).
Proof.
  split; [reflexivity |].
  exact (search_suggestions_query_quoted demo_client
           (always (PlatformAPIClient.mkHttpResponse 200 [] (Some JNull)))
           demo_uuid (lit "a b&c=d") eq_refl).
Defined.

Example quote_demo :
  quote (lit "a b&c=d/" ++ [0xE9] ++ lit "~_.-")
  = Ok (lit "a%20b%26c%3Dd/%C3%A9~_.-").
Proof. reflexivity. Qed.

(** X17: a query holding a lone surrogate makes [get_search_suggestions]
    raise [UnicodeEncodeError] before anything is sent. *)
Theorem search_suggestions_unencodable (self : PlatformAPIClient.t)
    (session_request : PlatformAPIClient.http_request -> PlatformAPIClient.http_response)
    (u : list byte) (query : pystr) :
  utf8_encodable query = false ->
  PlatformAPIClient.get_search_suggestions self session_request u query
  = ([], PlatformAPIClient.Raised (PlatformAPIClient.Builtin UnicodeEncodeError)).
Proof.
  intros Hq. unfold PlatformAPIClient.get_search_suggestions, quote.
  rewrite (encode_utf8_not_encodable query Hq). reflexivity.
Qed.

Lemma search_suggestions_unencodable_witness :
  utf8_encodable [0xD800] = false
  /\ PlatformAPIClient.get_search_suggestions demo_client
       (always (PlatformAPIClient.mkHttpResponse 200 [] (Some JNull)))
       demo_uuid [0xD800]
     = ([], PlatformAPIClient.Raised (PlatformAPIClient.Builtin UnicodeEncodeError)).
Proof.
  split; [reflexivity |].
  exact (search_suggestions_unencodable demo_client
           (always (PlatformAPIClient.mkHttpResponse 200 [] (Some JNull)))
           demo_uuid [0xD800] eq_refl).
Defined.

Lemma unquote_quote_byte (b : byte) (r : pystr) :
  unquote_to_bytes (quote_byte b ++ r) = option_map (cons b) (unquote_to_bytes r).
Proof.
  destruct b; cbn; destruct (unquote_to_bytes r); reflexivity.
Qed.

Lemma unquote_quote_from_bytes (bs : list byte) :
  unquote_to_bytes (quote_from_bytes bs) = Some bs.
Proof.
  induction bs as [|b bs IH]; [reflexivity |].
  change (quote_from_bytes (b :: bs)) with (quote_byte b ++ quote_from_bytes bs).
  rewrite unquote_quote_byte, IH. reflexivity.
Qed.

Lemma encode_utf8_injective (a b : pystr) (bs : list byte) :
  encode_utf8 a = Ok bs -> encode_utf8 b = Ok bs -> a = b.
Proof.
  intros Ha Hb. rewrite <- (decode_encode_utf8 a bs Ha).
  apply (decode_encode_utf8 b bs Hb).
Qed.

(** X18: quoting loses nothing: two queries with the same quoted form are
    the same query, so [get_search_suggestions] sends different URLs for
    different queries. *)
Theorem search_suggestions_injective (self : PlatformAPIClient.t)
    (session_request : PlatformAPIClient.http_request -> PlatformAPIClient.http_response)
    (u : list byte) (query query' : pystr)
    (sent sent' : PlatformAPIClient.http_request) :
  fst (PlatformAPIClient.get_search_suggestions self session_request u query)
  = [sent] ->
  fst (PlatformAPIClient.get_search_suggestions self session_request u query')
  = [sent'] ->
  PlatformAPIClient.req_url sent = PlatformAPIClient.req_url sent' ->
  query = query'.
Proof.
  unfold PlatformAPIClient.get_search_suggestions, quote.
  destruct (encode_utf8 query) as [bs|e] eqn:Hq; cbn [bind]; [| discriminate].
  destruct (encode_utf8 query') as [bs'|e'] eqn:Hq'; cbn [bind]; [| discriminate].
  intros H H' Hurl.
  rewrite request_sent in H. rewrite request_sent in H'.
  injection H as <-. injection H' as <-.
  unfold PlatformAPIClient.build_request in Hurl.
  cbn [PlatformAPIClient.req_url] in Hurl.
  apply app_inv_head in Hurl.
  change (lit "/search/suggestions?q=" ++ quote_from_bytes bs
          = lit "/search/suggestions?q=" ++ quote_from_bytes bs') in Hurl.
  apply app_inv_head in Hurl.
  apply (f_equal unquote_to_bytes) in Hurl.
  rewrite !unquote_quote_from_bytes in Hurl. injection Hurl as <-.
  exact (encode_utf8_injective query query' bs Hq Hq').
Qed.

Lemma search_suggestions_injective_witness :
  let send := always (PlatformAPIClient.mkHttpResponse 200 [] (Some JNull)) in
  let sent := PlatformAPIClient.build_request demo_client demo_uuid
                (lit "/search/suggestions?q=a%20b") (lit "GET") None None in
  fst (PlatformAPIClient.get_search_suggestions demo_client send demo_uuid (lit "a b"))
  = [sent]
  /\ PlatformAPIClient.req_url sent = PlatformAPIClient.req_url sent
  /\ lit "a b" = lit "a b".
Proof.
  intros send sent.
  assert (H : fst (PlatformAPIClient.get_search_suggestions demo_client send
                     demo_uuid (lit "a b")) = [sent]) by reflexivity.
  split; [exact H |]. split; [reflexivity |].
  exact (search_suggestions_injective demo_client send demo_uuid
           (lit "a b") (lit "a b") sent sent H H eq_refl).
Defined.

Lemma encode_utf8_ascii (s : pystr) :
  is_ascii s = true -> encode_utf8 s = Ok (map byte_of_N s).
Proof.
  unfold is_ascii. induction s as [|c s IH]; cbn [forallb encode_utf8 map];
    [reflexivity |].
  intros H. apply andb_true_iff in H as [Hc Hs].
  unfold encode_cp. replace (c <? 128) with true by (symmetry; exact Hc).
  rewrite (IH Hs). reflexivity.
Qed.

Lemma quote_safe_ascii (s : pystr) :
  forallb quote_safe s = true -> is_ascii s = true.
Proof.
  unfold is_ascii. rewrite !forallb_forall. intros H c Hc.
  assert (Hi : quote_inert c = true)
    by (unfold quote_inert; rewrite (H c Hc); reflexivity).
  apply N.ltb_lt. apply (quote_inert_not_reserved c Hi).
Qed.

(** X19: a query made only of letters, digits and [_.-~/] is quoted as
    itself. *)
Theorem quote_safe_identity (s : pystr) :
  forallb quote_safe s = true -> quote s = Ok s.
Proof.
  intros Hs. unfold quote.
  rewrite (encode_utf8_ascii s (quote_safe_ascii s Hs)). cbn [bind]. f_equal.
  induction s as [|c s IH]; [reflexivity |].
  cbn [forallb] in Hs. apply andb_true_iff in Hs as [Hc Hs].
  cbn [map]. change (quote_from_bytes (byte_of_N c :: map byte_of_N s))
    with (quote_byte (byte_of_N c) ++ quote_from_bytes (map byte_of_N s)).
  rewrite (IH Hs). unfold quote_byte.
  assert (Hlt : c < 256).
  { assert (Hi : quote_inert c = true)
      by (unfold quote_inert; rewrite Hc; reflexivity).
    pose proof (quote_inert_not_reserved c Hi). lia. }
  rewrite (byte_of_N_to_N c Hlt), Hc. reflexivity.
Qed.

Lemma quote_safe_identity_witness :
  forallb quote_safe (lit "fitness/yoga-2024") = true
  /\ quote (lit "fitness/yoga-2024") = Ok (lit "fitness/yoga-2024").
Proof.
  split; [reflexivity |].
  exact (quote_safe_identity (lit "fitness/yoga-2024") eq_refl).
Defined.

(** ** The revenue endpoint *)

(** X20: [get_revenue_metrics] requests the bare path
    ["/analytics/revenue"] exactly when both dates are [None] or empty; an
    empty string is dropped like [None]. With both dates given the query
    is [startDate=...&endDate=...], in that order, the values verbatim. *)
Theorem revenue_endpoint_dates (start_date end_date : pyval) :
  (PlatformAPIClient.revenue_endpoint start_date end_date
   = lit "/analytics/revenue"
   <-> truthy start_date = false /\ truthy end_date = false)
  /\ (forall s e,
        start_date = PyStr s -> end_date = PyStr e ->
        truthy start_date = true -> truthy end_date = true ->
        PlatformAPIClient.revenue_endpoint start_date end_date
        = lit "/analytics/revenue?startDate=" ++ s ++ lit "&endDate=" ++ e).
Proof.
  split.
  - destruct start_date as [|[|c s]]; destruct end_date as [|[|d e]];
      cbn; split; try tauto; try discriminate;
      intros [H1 H2]; discriminate.
  - intros s e -> -> Hs He.
    destruct s as [|c s]; [discriminate |]. destruct e as [|d e]; [discriminate |].
    cbn. rewrite <- ?app_assoc. reflexivity.
Qed.

(** X21: the dates are not escaped: a start date that contains
    ["&endDate="] is sent as the very request that the two parts would
    give as start and end date. *)
Theorem revenue_dates_not_escaped (self : PlatformAPIClient.t)
    (session_request : PlatformAPIClient.http_request -> PlatformAPIClient.http_response)
    (u : list byte) (a b : pystr) :
  a <> [] -> b <> [] ->
  PlatformAPIClient.get_revenue_metrics self session_request u
    (PyStr (a ++ lit "&endDate=" ++ b)) PyNone
  = PlatformAPIClient.get_revenue_metrics self session_request u
      (PyStr a) (PyStr b).
Proof.
  intros Ha Hb. unfold PlatformAPIClient.get_revenue_metrics. f_equal.
  destruct a as [|c a]; [congruence |]. destruct b as [|d b]; [congruence |].
  cbn. rewrite <- ?app_assoc. reflexivity.
Qed.

Lemma revenue_dates_not_escaped_witness :
  lit "2024-01-01" <> [] /\ lit "2024-12-31" <> []
  /\ PlatformAPIClient.get_revenue_metrics demo_client
       (always (PlatformAPIClient.mkHttpResponse 200 [] (Some JNull))) demo_uuid
       (PyStr (lit "2024-01-01" ++ lit "&endDate=" ++ lit "2024-12-31")) PyNone
     = PlatformAPIClient.get_revenue_metrics demo_client
         (always (PlatformAPIClient.mkHttpResponse 200 [] (Some JNull))) demo_uuid
         (PyStr (lit "2024-01-01")) (PyStr (lit "2024-12-31")).
Proof.
  assert (H1 : lit "2024-01-01" <> []) by discriminate.
  assert (H2 : lit "2024-12-31" <> []) by discriminate.
  split; [exact H1 |]. split; [exact H2 |].
  exact (revenue_dates_not_escaped demo_client
           (always (PlatformAPIClient.mkHttpResponse 200 [] (Some JNull)))
           demo_uuid (lit "2024-01-01") (lit "2024-12-31") H1 H2).
Defined.

Example revenue_endpoint_demo :
  PlatformAPIClient.revenue_endpoint (PyStr (lit "2024-01-01")) (PyStr [])
  = lit "/analytics/revenue?startDate=2024-01-01"
  /\ PlatformAPIClient.revenue_endpoint PyNone (PyStr (lit "2024-12-31"))
     = lit "/analytics/revenue?endDate=2024-12-31".
Proof. split; reflexivity. Qed.

(** ** The retry policy of a new webhook endpoint *)

(** X22: [create_webhook_endpoint] sends one POST to
    [base_url + "/webhooks/endpoints"] whose body always has a non-empty
    [retryPolicy] object: the caller's policy when it has at least one
    entry, and the defaults (3 retries, multiplier 2, 300 seconds) when
    the caller passes [None] or an empty dict. *)
Theorem webhook_endpoint_retry_policy (self : PlatformAPIClient.t)
    (session_request : PlatformAPIClient.http_request -> PlatformAPIClient.http_response)
    (u : list byte) (url : pystr) (events : list pystr)
    (retry_policy : option (dict json)) :
  exists sent body policy,
    fst (PlatformAPIClient.create_webhook_endpoint self session_request u
           url events retry_policy) = [sent]
    /\ PlatformAPIClient.req_method sent = lit "POST"
    /\ PlatformAPIClient.req_url sent
       = PlatformAPIClient.base_url self ++ lit "/webhooks/endpoints"
    /\ PlatformAPIClient.req_json sent = Some (JObj body)
    /\ lookup (lit "url") body = Some (JStr url)
    /\ lookup (lit "retryPolicy") body = Some (JObj policy)
    /\ policy <> []
    /\ (retry_policy = None \/ retry_policy = Some [] ->
        policy = PlatformAPIClient.default_retry_policy)
    /\ (forall kv r, retry_policy = Some (kv :: r) -> policy = kv :: r).
Proof.
  unfold PlatformAPIClient.create_webhook_endpoint.
  eexists. eexists. eexists.
  split; [apply request_sent |].
  cbn [PlatformAPIClient.build_request PlatformAPIClient.req_method
       PlatformAPIClient.req_url PlatformAPIClient.req_json].
  split; [reflexivity |]. split; [reflexivity |].
  split; [reflexivity |]. split; [reflexivity |]. split; [reflexivity |].
  destruct retry_policy as [[|kv r]|]; (split; [discriminate |]); split;
    try (intros [H | H]; (discriminate || reflexivity));
    try (intros kv' r' H; (discriminate || (injection H as <- <-; reflexivity))).
Qed.
